(** * gmail-mcp: a shallow embedding of the Gmail tool server

    The development follows the three Python modules of the repository:

    - [gmail_auth.py]: turning the credential broker's response into
      Google credentials and a Gmail service object;
    - [gmail_operations.py]: class [GmailClient], thin wrappers around the
      remote mail API, the search-query builder and the body extractor;
    - [gmail_mcp_server.py]: the tool layer, which validates parameters,
      calls the client and answers with a response mapping.

    Conventions of the embedding.

    - A Python [str] is the [string] of the bytes of its UTF-8 encoding,
      so that a character is one to four bytes; a Python [int] is a [Z];
      [None] is [JNull].
    - The broker's response and the tools' response mappings are Python
      dicts holding JSON-like values: type [json], a dict being an
      association list in insertion order whose first binding of a key is
      the value of that key.
    - The mail API's answers are typed after the API's resources: a field the
      code reads with [d['k']] is a plain field, a field the code probes
      with ['k' in d] or [d.get('k', ...)] is an [option].
    - Everything outside the repository (the broker, the Google
      libraries, the mail service, the file system, the [email] package)
      is an oracle of class [External], over an abstract world [W].  Each
      call of an oracle is logged as an [event].
    - A Python function is a computation [M A]: it takes the process state
      and gives back either a value or a raised exception, with the new
      state.  [try ... except Exception] is [try_except].
    - [print] only writes to standard output and is left out; the
      expressions its argument evaluates are kept where they can raise. *)

From Stdlib Require Import String Ascii List ZArith Bool Lia DecimalString.
Import ListNotations.
Open Scope string_scope.
Open Scope list_scope.
Set Warnings "-register-all".

(** ** Python values *)

Inductive json : Type :=
| JNull
| JBool (b : bool)
| JNum (n : Z)
| JStr (s : string)
| JArr (l : list json)
| JObj (d : list (string * json)).

Definition dict : Type := list (string * json).

(** The value bound to [k], if any: [Some v] when [k in d], with
    [v = d[k]], and [None] otherwise. *)
Fixpoint dict_get (k : string) (d : dict) : option json :=
  match d with
  | [] => None
  | (k', v) :: d' => if String.eqb k k' then Some v else dict_get k d'
  end.

(** [d.get(k)], which is [None] for a missing key. *)
Definition py_get (d : dict) (k : string) : json :=
  match dict_get k d with Some v => v | None => JNull end.

(** [list(d.keys())] *)
Definition dict_keys (d : dict) : list string := map fst d.

(** Truth value of a Python object, as [if x:] and [not x] test it. *)
Definition truthy (v : json) : bool :=
  match v with
  | JNull => false
  | JBool b => b
  | JNum n => negb (Z.eqb n 0)
  | JStr s => negb (String.eqb s "")
  | JArr l => match l with [] => false | _ => true end
  | JObj d => match d with [] => false | _ => true end
  end.

(** Truth value of a [str]. *)
Definition str_truthy (s : string) : bool := negb (String.eqb s "").

(** Truth value of an [Optional[str]] parameter. *)
Definition opt_truthy (o : option string) : bool :=
  match o with Some s => str_truthy s | None => false end.

(** [str(n)] for an [int]. *)
Definition str_of_Z (n : Z) : string := NilZero.string_of_int (Z.to_int n).

(** [sep.join(l)] *)
Fixpoint join (sep : string) (l : list string) : string :=
  match l with
  | [] => ""
  | [s] => s
  | s :: l' => s ++ sep ++ join sep l'
  end.

(** [c in s] for a one-character [c]. *)
Fixpoint str_contains (c : ascii) (s : string) : bool :=
  match s with
  | EmptyString => false
  | String c' s' => Ascii.eqb c c' || str_contains c s'
  end.

(** What follows the first [c] in [s], when [c] occurs in [s]. *)
Fixpoint after_first (c : ascii) (s : string) : option string :=
  match s with
  | EmptyString => None
  | String c' s' => if Ascii.eqb c c' then Some s' else after_first c s'
  end.

(** [s] up to its first [c]; so [s.split(c)[1]] is
    [upto c] of [after_first c s]. *)
Fixpoint upto (c : ascii) (s : string) : string :=
  match s with
  | EmptyString => EmptyString
  | String c' s' => if Ascii.eqb c c' then EmptyString else String c' (upto c s')
  end.

(** The whitespace characters of [str.strip] and [str.isspace] below
    U+0080: U+0009 to U+000D, U+001C to U+001F and the space. *)
Definition is_space (c : ascii) : bool :=
  let n := nat_of_ascii c in
  ((9 <=? n)%nat && (n <=? 13)%nat) || ((28 <=? n)%nat && (n <=? 32)%nat).

(** The whitespace characters encoded on two bytes: U+0085 and U+00A0. *)
Definition is_space2 (a b : ascii) : bool :=
  (nat_of_ascii a =? 194)%nat &&
  ((nat_of_ascii b =? 133)%nat || (nat_of_ascii b =? 160)%nat).

(** The whitespace characters encoded on three bytes: U+1680, U+2000 to
    U+200A, U+2028, U+2029, U+202F, U+205F and U+3000. *)
Definition is_space3 (a b c : ascii) : bool :=
  let x := nat_of_ascii a in
  let y := nat_of_ascii b in
  let z := nat_of_ascii c in
  ((x =? 225)%nat && (y =? 154)%nat && (z =? 128)%nat)
  || ((x =? 226)%nat && (y =? 128)%nat &&
      (((128 <=? z)%nat && (z <=? 138)%nat)
       || (z =? 168)%nat || (z =? 169)%nat || (z =? 175)%nat))
  || ((x =? 226)%nat && (y =? 129)%nat && (z =? 159)%nat)
  || ((x =? 227)%nat && (y =? 128)%nat && (z =? 128)%nat).

(** [not s.strip()]: [s] holds nothing but whitespace characters. *)
Fixpoint is_blank (s : string) : bool :=
  match s with
  | EmptyString => true
  | String a r1 =>
      if is_space a then is_blank r1
      else
        match r1 with
        | EmptyString => false
        | String b r2 =>
            if is_space2 a b then is_blank r2
            else
              match r2 with
              | EmptyString => false
              | String c r3 => if is_space3 a b c then is_blank r3 else false
              end
        end
  end.

(** A byte that continues a character: [10xxxxxx]. *)
Definition is_continuation (c : ascii) : bool :=
  let n := nat_of_ascii c in (128 <=? n)%nat && (n <=? 191)%nat.

(** [s[:n]] on a [str]: the first [n] characters, each with the bytes
    that continue it. *)
Fixpoint str_take (n : nat) (s : string) : string :=
  match s with
  | EmptyString => EmptyString
  | String c s' =>
      if is_continuation c then String c (str_take n s')
      else
        match n with
        | O => EmptyString
        | S n' => String c (str_take n' s')
        end
  end.

(** ** Exceptions and results *)

Inductive exn : Type :=
| ValueError (msg : string)
| TypeError (msg : string)
| AttributeError (msg : string)
| RemoteError (msg : string).

(** [str(e)] *)
Definition exn_str (e : exn) : string :=
  match e with
  | ValueError m | TypeError m | AttributeError m | RemoteError m => m
  end.

Inductive result (A : Type) : Type :=
| Ok (a : A)
| Raise (e : exn).
Arguments Ok {A} a.
Arguments Raise {A} e.

Definition rbind {A B : Type} (r : result A) (k : A -> result B) : result B :=
  match r with
  | Ok a => k a
  | Raise e => Raise e
  end.

(** ** gmail_auth.py: credentials *)

Record Credentials : Type := mkCredentials {
  token : json;
  refresh_token : json;
  token_uri : string;
  client_id : json;
  client_secret : json;
  scopes : list string
}.

Definition SCOPES : list string :=
  ["https://www.googleapis.com/auth/gmail.readonly"].

(** [type(v).__name__] *)
Definition type_name (v : json) : string :=
  match v with
  | JNull => "NoneType"
  | JBool _ => "bool"
  | JNum _ => "int"
  | JStr _ => "str"
  | JArr _ => "list"
  | JObj _ => "dict"
  end.

(** The exception of [v.get(...)] on a value that is no dict. *)
Definition no_get (v : json) : exn :=
  AttributeError ("'" ++ type_name v ++ "' object has no attribute 'get'").

(** [x[:20]] inside the f-string of [authenticate_gmail_with_nango_v2]:
    a [str] and a [list] can be sliced, the other values cannot (for a
    dict the class of the exception depends on the Python version). *)
Definition slice_check (v : json) : result unit :=
  match v with
  | JStr _ | JArr _ => Ok tt
  | JNull => Raise (TypeError "'NoneType' object is not subscriptable")
  | JBool _ => Raise (TypeError "'bool' object is not subscriptable")
  | JNum _ => Raise (TypeError "'int' object is not subscriptable")
  | JObj _ => Raise (TypeError "unhashable type: 'slice'")
  end.

Section Auth.
(** Python's [repr] on a [str], used when a list of keys is formatted. *)
Variable py_repr : string -> string.

(** [str(l)] for a list of [str]. *)
Definition repr_list (l : list string) : string :=
  "[" ++ join ", " (map py_repr l) ++ "]".

(** Lines 113-126 of [authenticate_gmail_with_nango_v2]: the places
    where the tokens are looked for.  The result is the pair
    [(access_token, refresh_token)]. *)
Definition locate_tokens (nango_response : dict) : result (json * json) :=
  match dict_get "access_token" nango_response with
  | Some access_token =>
      Ok (access_token, py_get nango_response "refresh_token")
  | None =>
      match dict_get "credentials" nango_response with
      | Some creds_data =>
          match creds_data with
          | JObj d => Ok (py_get d "access_token", py_get d "refresh_token")
          | _ => Raise (no_get creds_data)
          end
      | None =>
          match dict_get "token" nango_response with
          | Some access_token =>
              Ok (access_token, py_get nango_response "refresh_token")
          | None => Ok (JNull, JNull)
          end
      end
  end.

(** Lines 113-141 of [authenticate_gmail_with_nango_v2]: from the
    broker's response to the credentials object. *)
Definition credentials_v2 (nango_response : dict) : result Credentials :=
  rbind (locate_tokens nango_response) (fun '(access_token, refresh_token) =>
  if negb (truthy access_token) then
    Raise (ValueError
      ("No access token found in Nango response. Available keys: "
         ++ repr_list (dict_keys nango_response)))
  else
    rbind (slice_check access_token) (fun _ =>
    Ok (mkCredentials access_token refresh_token
          "https://oauth2.googleapis.com/token" JNull JNull SCOPES))).

(** [create_credentials_from_nango], used by
    [authenticate_gmail_with_nango]. *)
Definition create_credentials_from_nango (nango_response : dict)
  : result Credentials :=
  let credentials_data :=
    match dict_get "credentials" nango_response with
    | Some v => v
    | None => JObj nango_response
    end in
  match credentials_data with
  | JObj d =>
      let access_token := py_get d "access_token" in
      if negb (truthy access_token) then
        Raise (ValueError "No access_token found in Nango response")
      else
        Ok (mkCredentials access_token (py_get d "refresh_token")
              "https://oauth2.googleapis.com/token"
              (py_get d "client_id") (py_get d "client_secret") SCOPES)
  | _ => Raise (no_get credentials_data)
  end.
End Auth.

(** The token search as the specification words it: the response is
    searched, in order, for an access token at top level, then under the
    ["credentials"] key, then under the ["token"] key, and the first one
    found wins. *)
Definition token_candidates (r : dict) : list (option json) :=
  [ dict_get "access_token" r;
    match dict_get "credentials" r with
    | Some (JObj d) => dict_get "access_token" d
    | _ => None
    end;
    dict_get "token" r ].

Fixpoint first_found (l : list (option json)) : option json :=
  match l with
  | [] => None
  | Some v :: _ => Some v
  | None :: l' => first_found l'
  end.

Definition buildCredential_spec (r : dict) : option json :=
  first_found (token_candidates r).

(** ** The mail API's resources

    [users.messages.get] answers with a Message whose [payload] is a tree
    of MessagePart; [users.messages.list] answers with references to
    messages; [users.messages.send] answers with the message sent. *)

Record Header : Type := mkHeader {
  name : string;
  value : string
}.

Record MessagePartBody : Type := mkBody {
  data : option string
}.

Inductive MessagePart : Type := mkPart {
  mimeType : string;
  headers : option (list Header);
  body : option MessagePartBody;
  parts : option (list MessagePart)
}.

Record Message : Type := mkMessage {
  id : string;
  threadId : option string;
  labelIds : option (list string);
  snippet : option string;
  payload : option MessagePart
}.

Record MessageRef : Type := mkRef {
  ref_id : string
}.

Record ListResponse : Type := mkListResponse {
  messages : option (list MessageRef)
}.

Record Profile : Type := mkProfile {
  emailAddress : option string;
  messagesTotal : option Z;
  threadsTotal : option Z;
  historyId : option string
}.

(** The object [build('gmail', 'v1', credentials=creds)] returns. *)
Record Service : Type := mkService {
  service_credentials : Credentials
}.

(** class [GmailClient]: [self.service] is its only attribute. *)
Record GmailClient : Type := mkClient {
  service : Service
}.

(** ** The outside world *)

Inductive event : Type :=
| EvBroker (connection_id provider_config_key : string)
| EvRefresh (creds : Credentials)
| EvBuild (creds : Credentials)
| EvList (q : string) (maxResults : Z)
| EvGet (message_id : string)
| EvSend (raw : string)
| EvModify (message_id : string)
| EvDelete (message_id : string)
| EvProfile
| EvReadFile (file_path : string).

Class External (W : Type) : Type := {
  (** Python's [repr] on a [str] *)
  repr : string -> string;
  (** [os.getenv] *)
  getenv : string -> W -> option string;
  (** [os.path.exists] *)
  path_exists : string -> W -> bool;
  (** [get_connection_credentials]: the HTTP GET to the broker, with
      [raise_for_status] and the decoding of the JSON body *)
  get_connection_credentials : string -> string -> W -> result dict * W;
  (** [creds.valid] and [creds.refresh(Request())] of google-auth *)
  creds_valid : Credentials -> W -> bool;
  creds_refresh : Credentials -> W -> result Credentials * W;
  (** [build('gmail', 'v1', credentials=creds)] *)
  build : Credentials -> W -> result unit * W;
  (** [service.users().messages().list(userId='me', q, maxResults).execute()] *)
  api_list : Service -> string -> Z -> W -> result ListResponse * W;
  (** [service.users().messages().get(userId='me', id, format='full').execute()] *)
  api_get : Service -> string -> W -> result Message * W;
  (** [service.users().messages().send(userId='me', body={'raw': raw}).execute()];
      the answer's ['id'] *)
  api_send : Service -> string -> W -> result string * W;
  (** [service.users().messages().modify(userId='me', id,
      body={'removeLabelIds': ['UNREAD']}).execute()] *)
  api_modify : Service -> string -> W -> result unit * W;
  (** [service.users().messages().delete(userId='me', id).execute()] *)
  api_delete : Service -> string -> W -> result unit * W;
  (** [service.users().getProfile(userId='me').execute()] *)
  api_get_profile : Service -> W -> result Profile * W;
  (** [base64.urlsafe_b64decode(data).decode('utf-8')] *)
  b64decode_utf8 : string -> result string;
  (** [MIMEText(body)] with its ['to'], ['subject'] and optional ['from']
      headers, serialised by [as_bytes()] and encoded by
      [base64.urlsafe_b64encode(...).decode()] *)
  mime_text_raw : string -> string -> string -> option string -> result string;
  (** the same for the [MIMEMultipart] message of
      [send_message_with_attachment], which reads the attached file *)
  mime_multipart_raw : string -> string -> string -> string -> W -> result string * W
}.

(** ** Computations *)

Record state (W : Type) : Type := mkState {
  world : W;
  trace : list event;
  _gmail_client : option GmailClient;
  _gmail_service : option Service
}.
Arguments mkState {W}.
Arguments world {W}.
Arguments trace {W}.
Arguments _gmail_client {W}.
Arguments _gmail_service {W}.

Definition M (W A : Type) : Type := state W -> result A * state W.

Definition ret {W A : Type} (a : A) : M W A := fun s => (Ok a, s).

Definition raise {W A : Type} (e : exn) : M W A := fun s => (Raise e, s).

Definition bind {W A B : Type} (m : M W A) (k : A -> M W B) : M W B :=
  fun s =>
    match m s with
    | (Ok a, s') => k a s'
    | (Raise e, s') => (Raise e, s')
    end.

(** [try: m  except Exception as e: h e] *)
Definition try_except {W A : Type} (m : M W A) (h : exn -> M W A) : M W A :=
  fun s =>
    match m s with
    | (Ok a, s') => (Ok a, s')
    | (Raise e, s') => h e s'
    end.

(** A pure step that can raise. *)
Definition lift {W A : Type} (r : result A) : M W A := fun s => (r, s).

(** Reading the world without changing it. *)
Definition ask {W A : Type} (f : W -> A) : M W A := fun s => (Ok (f (world s)), s).

(** A call to the outside, logged. *)
Definition call {W A : Type} (ev : event) (f : W -> result A * W) : M W A :=
  fun s =>
    let (r, w) := f (world s) in
    (r, mkState w (trace s ++ [ev]) (_gmail_client s) (_gmail_service s)).

Definition get_client_global {W : Type} : M W (option GmailClient) :=
  fun s => (Ok (_gmail_client s), s).

Definition get_service_global {W : Type} : M W (option Service) :=
  fun s => (Ok (_gmail_service s), s).

Definition set_service_global {W : Type} (sv : Service) : M W unit :=
  fun s => (Ok tt, mkState (world s) (trace s) (_gmail_client s) (Some sv)).

Definition set_client_global {W : Type} (c : GmailClient) : M W unit :=
  fun s => (Ok tt, mkState (world s) (trace s) (Some c) (_gmail_service s)).

Declare Scope py_scope.
Delimit Scope py_scope with py.
Notation "x <- m ;; k" := (bind m (fun x => k))
  (at level 61, m at next level, right associativity) : py_scope.
Notation "' pat <- m ;; k" :=
  (bind m (fun x => match x with pat => k end))
  (at level 61, pat pattern, m at next level, right associativity) : py_scope.
Notation "m ;;; k" := (bind m (fun _ => k))
  (at level 61, right associativity) : py_scope.
Open Scope py_scope.

(** ** gmail_operations.py: class GmailClient *)

(** [d[k] = v] on an insertion-ordered dict. *)
Fixpoint dict_set {V : Type} (k : string) (v : V) (d : list (string * V))
  : list (string * V) :=
  match d with
  | [] => [(k, v)]
  | (k', v') :: d' =>
      if String.eqb k k' then (k, v) :: d' else (k', v') :: dict_set k v d'
  end.

(** [d.get(k, default)] on a dict of [str]. *)
Fixpoint str_get (k : string) (default : string) (d : list (string * string))
  : string :=
  match d with
  | [] => default
  | (k', v) :: d' => if String.eqb k k' then v else str_get k default d'
  end.

(** The test [part['mimeType'] == 'text/plain' and 'data' in
    part.get('body', {})], giving [part['body']['data']] when it holds. *)
Definition plain_data (part : MessagePart) : option string :=
  if String.eqb (mimeType part) "text/plain" then
    match body part with
    | Some b => data b
    | None => None
    end
  else None.

Section Scan.
Variable decode : string -> result string.
Variable extract : MessagePart -> result string.

(** The [for part in payload['parts']] loop of
    [extract_text_from_payload]; [body_text] is the local variable, and
    leaving the loop returns it. *)
Definition scan_parts : list MessagePart -> string -> result string :=
  fix scan (l : list MessagePart) (body_text : string) : result string :=
    match l with
    | [] => Ok body_text
    | part :: rest =>
        match plain_data part with
        | Some d => decode d
        | None =>
            match parts part with
            | Some _ =>
                match extract part with
                | Ok t => if str_truthy t then Ok t else scan rest t
                | Raise e => Raise e
                end
            | None => scan rest body_text
            end
        end
    end.
End Scan.

(** The local function [extract_text_from_payload] of [get_message_body]. *)
Fixpoint extract_text_from_payload (decode : string -> result string)
  (payload : MessagePart) : result string :=
  match parts payload with
  | Some ps => scan_parts decode (extract_text_from_payload decode) ps ""
  | None =>
      match plain_data payload with
      | Some d => decode d
      | None => Ok ""
      end
  end.

(** [GmailClient.get_message_body]; [message] is [None] or a Message. *)
Definition get_message_body (decode : string -> result string)
  (message : option Message) : result string :=
  match message with
  | None => Ok ""
  | Some m =>
      match payload m with
      | None => Ok ""
      | Some p => extract_text_from_payload decode p
      end
  end.

(** [GmailClient.get_message_headers] *)
Definition get_message_headers (message : option Message)
  : list (string * string) :=
  match message with
  | None => []
  | Some m =>
      match payload m with
      | None => []
      | Some p =>
          fold_left (fun hs header => dict_set (name header) (value header) hs)
            (match headers p with Some l => l | None => [] end) []
      end
  end.

Definition dquote : string := String (ascii_of_nat 34) EmptyString.

(** The query of [GmailClient.search_messages]: [query_parts] grows by
    one [append] per parameter that is true, then [' '.join]. *)
Definition search_query (sender subject after_date : option string)
  (has_attachment is_unread : bool) : string :=
  let query_parts := [] in
  let query_parts :=
    match sender with
    | Some s => if str_truthy s then query_parts ++ [("from:" ++ s)%string] else query_parts
    | None => query_parts
    end in
  let query_parts :=
    match subject with
    | Some s =>
        if str_truthy s
        then query_parts ++ [("subject:" ++ dquote ++ s ++ dquote)%string]
        else query_parts
    | None => query_parts
    end in
  let query_parts :=
    match after_date with
    | Some s => if str_truthy s then query_parts ++ [("after:" ++ s)%string] else query_parts
    | None => query_parts
    end in
  let query_parts :=
    if has_attachment then query_parts ++ ["has:attachment"] else query_parts in
  let query_parts :=
    if is_unread then query_parts ++ ["is:unread"] else query_parts in
  join " " query_parts.

Section Client.
Context {W : Type} {E : External W}.

(** [GmailClient.list_messages(query, max_results)] *)
Definition list_messages (self : GmailClient) (query : string) (max_results : Z)
  : M W (list MessageRef) :=
  try_except
    (result <- call (EvList query max_results)
                 (api_list (service self) query max_results) ;;
     ret (match messages result with Some l => l | None => [] end))
    (fun _ => ret []).

(** [GmailClient.get_message(message_id)] *)
Definition get_message (self : GmailClient) (message_id : string)
  : M W (option Message) :=
  try_except
    (message <- call (EvGet message_id) (api_get (service self) message_id) ;;
     ret (Some message))
    (fun _ => ret None).

(** [GmailClient.send_message(to, subject, body, from_email=None)];
    the result is the ['id'] of the message sent, or [None]. *)
Definition send_message (self : GmailClient) (to subject body : string)
  (from_email : option string) : M W (option string) :=
  try_except
    (raw_message <- lift (mime_text_raw to subject body from_email) ;;
     sent <- call (EvSend raw_message) (api_send (service self) raw_message) ;;
     ret (Some sent))
    (fun _ => ret None).

(** [GmailClient.send_message_with_attachment(to, subject, body, file_path)] *)
Definition send_message_with_attachment (self : GmailClient)
  (to subject body file_path : string) : M W (option string) :=
  try_except
    (found <- ask (path_exists file_path) ;;
     if found : bool then
       raw_message <- call (EvReadFile file_path)
                        (mime_multipart_raw to subject body file_path) ;;
       sent <- call (EvSend raw_message) (api_send (service self) raw_message) ;;
       ret (Some sent)
     else ret None)
    (fun _ => ret None).

(** [GmailClient.mark_as_read(message_id)] *)
Definition mark_as_read (self : GmailClient) (message_id : string) : M W bool :=
  try_except
    (call (EvModify message_id) (api_modify (service self) message_id) ;;;
     ret true)
    (fun _ => ret false).

(** [GmailClient.delete_message(message_id)] *)
Definition delete_message (self : GmailClient) (message_id : string) : M W bool :=
  try_except
    (call (EvDelete message_id) (api_delete (service self) message_id) ;;;
     ret true)
    (fun _ => ret false).

(** [GmailClient.search_messages(sender, subject, after_date,
    has_attachment, is_unread)]: [list_messages] is called with the query
    alone, so with its default [max_results=10]. *)
Definition search_messages (self : GmailClient)
  (sender subject after_date : option string) (has_attachment is_unread : bool)
  : M W (list MessageRef) :=
  list_messages self
    (search_query sender subject after_date has_attachment is_unread) 10.

End Client.

(** ** gmail_auth.py: authentication *)

Section Authenticate.
Context {W : Type} {E : External W}.

(** [authenticate_gmail_with_nango]: the two [except] clauses re-raise. *)
Definition authenticate_gmail_with_nango (connection_id provider_config_key : string)
  : M W Service :=
  nango_response <- call (EvBroker connection_id provider_config_key)
                      (get_connection_credentials connection_id provider_config_key) ;;
  creds <- lift (create_credentials_from_nango nango_response) ;;
  valid <- ask (creds_valid creds) ;;
  creds <- (if negb valid && truthy (refresh_token creds)
            then call (EvRefresh creds) (creds_refresh creds)
            else ret creds) ;;
  call (EvBuild creds) (build creds) ;;;
  ret (mkService creds).

(** [authenticate_gmail_with_nango_v2]: the [except] clause asks the
    broker once more, for printing, and re-raises. *)
Definition authenticate_gmail_with_nango_v2 (connection_id provider_config_key : string)
  : M W Service :=
  try_except
    (nango_response <- call (EvBroker connection_id provider_config_key)
                         (get_connection_credentials connection_id provider_config_key) ;;
     creds <- lift (credentials_v2 repr nango_response) ;;
     call (EvBuild creds) (build creds) ;;;
     ret (mkService creds))
    (fun e =>
       try_except
         (call (EvBroker connection_id provider_config_key)
            (get_connection_credentials connection_id provider_config_key) ;;;
          ret tt)
         (fun _ => ret tt) ;;;
       raise e).

End Authenticate.

(** ** gmail_mcp_server.py: the tool layer *)

(** [for x in l: body], threading the variables the body assigns. *)
Fixpoint for_each {W A S : Type} (l : list A) (body : A -> S -> M W S) (s : S)
  : M W S :=
  match l with
  | [] => ret s
  | x :: l' => s' <- body x s ;; for_each l' body s'
  end.

Definition validate_message_id (message_id : string) : bool :=
  str_truthy message_id && (0 <? String.length message_id)%nat.

Definition validate_email_address (email : string) : bool :=
  str_truthy email && str_contains "@" email &&
  match after_first "@" email with
  | Some rest => str_contains "." (upto "@" rest)
  | None => false
  end.

(** [s.lower()], byte by byte: the ASCII letters are lowered, the bytes
    of the other characters stay.  Python lowers letters outside ASCII
    too; none of them becomes a letter of the word ["attachment"], the
    one thing the result is searched for. *)
Definition lower_char (c : ascii) : ascii :=
  let n := nat_of_ascii c in
  if (65 <=? n)%nat && (n <=? 90)%nat then ascii_of_nat (n + 32) else c.

Fixpoint str_lower (s : string) : string :=
  match s with
  | EmptyString => EmptyString
  | String c s' => String (lower_char c) (str_lower s')
  end.

(** [sub in s] *)
Fixpoint str_in (sub s : string) : bool :=
  String.prefix sub s ||
  match s with
  | EmptyString => false
  | String _ s' => str_in sub s'
  end.

(** [x in l] for a list of [str]. *)
Definition list_in (x : string) (l : list string) : bool :=
  existsb (String.eqb x) l.

(** [os.path.basename] on a POSIX path: what follows the last slash. *)
Fixpoint basename (path : string) : string :=
  match path with
  | EmptyString => EmptyString
  | String _ rest => if str_contains "/" path then basename rest else path
  end.

Definition or_default (o : option string) (default : string) : string :=
  match o with Some s => s | None => default end.

(** [message.get('snippet', '')[:100] + '...' if message.get('snippet') else ''] *)
Definition snippet_preview (message : Message) : string :=
  if opt_truthy (snippet message)
  then (str_take 100 (or_default (snippet message) "") ++ "...")%string
  else "".

Definition labels_of (message : Message) : list string :=
  match labelIds message with Some l => l | None => [] end.

(** The entry [gmail_list_messages] builds for one message. *)
Definition list_entry (msg : MessageRef) (message : Message) : json :=
  let headers := get_message_headers (Some message) in
  JObj [ ("id", JStr (ref_id msg));
         ("from", JStr (str_get "From" "Unknown" headers));
         ("subject", JStr (str_get "Subject" "No Subject" headers));
         ("date", JStr (str_get "Date" "Unknown" headers));
         ("snippet", JStr (snippet_preview message));
         ("labels", JArr (map JStr (labels_of message)));
         ("is_unread", JBool (list_in "UNREAD" (labels_of message))) ].

(** The entry [gmail_search_messages] builds for one message. *)
Definition search_entry (msg : MessageRef) (message : Message) : json :=
  let headers := get_message_headers (Some message) in
  JObj [ ("id", JStr (ref_id msg));
         ("from", JStr (str_get "From" "Unknown" headers));
         ("subject", JStr (str_get "Subject" "No Subject" headers));
         ("date", JStr (str_get "Date" "Unknown" headers));
         ("snippet", JStr (snippet_preview message));
         ("is_unread", JBool (list_in "UNREAD" (labels_of message)));
         ("has_attachment",
          JBool (str_in "attachment" (str_lower (or_default (snippet message) "")))) ].

(** [{"success": False, "error": msg}] *)
Definition failure (msg : string) : dict :=
  [ ("success", JBool false); ("error", JStr msg) ].

(** The [criteria] list of [gmail_search_messages]. *)
Definition search_criteria (sender subject after_date before_date : option string)
  (has_attachment is_unread : bool) : list string :=
  let criteria := [] in
  let criteria :=
    if opt_truthy sender
    then criteria ++ [("sender: " ++ or_default sender "")%string] else criteria in
  let criteria :=
    if opt_truthy subject
    then criteria ++ [("subject: " ++ or_default subject "")%string] else criteria in
  let criteria :=
    if opt_truthy after_date
    then criteria ++ [("after: " ++ or_default after_date "")%string] else criteria in
  let criteria :=
    if opt_truthy before_date
    then criteria ++ [("before: " ++ or_default before_date "")%string] else criteria in
  let criteria := if has_attachment then criteria ++ ["has attachment"] else criteria in
  let criteria := if is_unread then criteria ++ ["unread only"] else criteria in
  criteria.

Section Tools.
Context {W : Type} {E : External W}.

(** [get_gmail_client]: the client is built on the first call and kept in
    the globals [_gmail_client] and [_gmail_service]. *)
Definition get_gmail_client : M W GmailClient :=
  cached <- get_client_global ;;
  match cached with
  | Some client => ret client
  | None =>
      connection_id <- ask (getenv "GMAIL_CONNECTION_ID") ;;
      provider_config_key <- ask (fun w =>
        or_default (getenv "NANGO_PROVIDER_CONFIG_KEY" w) "google") ;;
      if negb (opt_truthy connection_id) then
        raise (ValueError "GMAIL_CONNECTION_ID environment variable is required")
      else
        sv <- authenticate_gmail_with_nango_v2
                (or_default connection_id "") provider_config_key ;;
        set_service_global sv ;;;
        set_client_global (mkClient sv) ;;;
        ret (mkClient sv)
  end.

(** The loop of [gmail_list_messages] and [gmail_search_messages] over the
    message references: a message that cannot be fetched is skipped. *)
Definition detail_messages (entry : MessageRef -> Message -> json)
  (gmail : GmailClient) (msgs : list MessageRef) : M W (list json) :=
  for_each msgs
    (fun msg detailed_messages =>
       message <- get_message gmail (ref_id msg) ;;
       match message with
       | Some m => ret (detailed_messages ++ [entry msg m])
       | None => ret detailed_messages
       end)
    [].

Definition gmail_list_messages (query : string) (max_results : Z) : M W dict :=
  try_except
    (if (max_results <? 1)%Z || (100 <? max_results)%Z then
       ret (failure "max_results must be between 1 and 100")
     else
       gmail <- get_gmail_client ;;
       messages <- list_messages gmail query max_results ;;
       match messages with
       | [] =>
           ret [ ("success", JBool true); ("count", JNum 0);
                 ("messages", JArr []); ("message", JStr "No messages found") ]
       | _ =>
           detailed_messages <- detail_messages list_entry gmail messages ;;
           ret [ ("success", JBool true);
                 ("count", JNum (Z.of_nat (List.length detailed_messages)));
                 ("messages", JArr detailed_messages);
                 ("query_used",
                  JStr (if str_truthy query then query else "all messages")) ]
       end)
    (fun e => ret (failure ("Failed to list messages: " ++ exn_str e))).

Definition gmail_get_message (message_id : string) : M W dict :=
  try_except
    (if negb (validate_message_id message_id) then
       ret (failure "Invalid message ID provided")
     else
       gmail <- get_gmail_client ;;
       message <- get_message gmail message_id ;;
       match message with
       | None => ret (failure ("Message " ++ message_id ++ " not found"))
       | Some m =>
           let headers := get_message_headers message in
           body <- lift (get_message_body b64decode_utf8 message) ;;
           ret [ ("success", JBool true);
                 ("message", JObj
                    [ ("id", JStr message_id);
                      ("from", JStr (str_get "From" "Unknown" headers));
                      ("to", JStr (str_get "To" "Unknown" headers));
                      ("subject", JStr (str_get "Subject" "No Subject" headers));
                      ("date", JStr (str_get "Date" "Unknown" headers));
                      ("body", JStr body);
                      ("snippet", JStr (or_default (snippet m) ""));
                      ("labels", JArr (map JStr (labels_of m)));
                      ("thread_id", JStr (or_default (threadId m) ""));
                      ("is_unread", JBool (list_in "UNREAD" (labels_of m))) ]) ]
       end)
    (fun e => ret (failure ("Failed to get message: " ++ exn_str e))).

Definition gmail_send_message (to subject body cc bcc : string) : M W dict :=
  try_except
    (if negb (validate_email_address to) then
       ret (failure "Invalid recipient email address")
     else if is_blank subject then ret (failure "Subject cannot be empty")
     else if is_blank body then ret (failure "Body cannot be empty")
     else
       gmail <- get_gmail_client ;;
       result <- send_message gmail to subject body None ;;
       match result with
       | Some sent_id =>
           ret [ ("success", JBool true);
                 ("message", JStr "Email sent successfully");
                 ("message_id", JStr sent_id);
                 ("to", JStr to);
                 ("subject", JStr subject) ]
       | None => ret (failure "Failed to send email")
       end)
    (fun e => ret (failure ("Failed to send message: " ++ exn_str e))).

Definition gmail_search_messages
  (sender subject after_date before_date : option string)
  (has_attachment is_unread : bool) (max_results : Z) : M W dict :=
  try_except
    (if (max_results <? 1)%Z || (100 <? max_results)%Z then
       ret (failure "max_results must be between 1 and 100")
     else
       gmail <- get_gmail_client ;;
       messages <- search_messages gmail sender subject after_date
                     has_attachment is_unread ;;
       match messages with
       | [] =>
           ret [ ("success", JBool true); ("count", JNum 0);
                 ("messages", JArr []);
                 ("message", JStr "No messages found matching search criteria") ]
       | _ =>
           let messages := firstn (Z.to_nat max_results) messages in
           detailed_messages <- detail_messages search_entry gmail messages ;;
           let criteria := search_criteria sender subject after_date before_date
                             has_attachment is_unread in
           ret [ ("success", JBool true);
                 ("count", JNum (Z.of_nat (List.length detailed_messages)));
                 ("messages", JArr detailed_messages);
                 ("search_criteria",
                  JArr (map JStr (match criteria with
                                  | [] => ["all messages"]
                                  | _ => criteria
                                  end))) ]
       end)
    (fun e => ret (failure ("Failed to search messages: " ++ exn_str e))).

(** The loop shared by the two batch tools: [op] is [gmail.mark_as_read]
    or [gmail.delete_message]; the state is [(success_count, failed_ids)]. *)
Definition batch (op : string -> M W bool) (message_ids : list string)
  : M W (Z * list string) :=
  for_each message_ids
    (fun msg_id '(success_count, failed_ids) =>
       done <- op msg_id ;;
       if done : bool then ret ((success_count + 1)%Z, failed_ids)
       else ret (success_count, failed_ids ++ [msg_id]))
    (0%Z, []).

Definition invalid_ids (message_ids : list string) : list string :=
  filter (fun msg_id => negb (validate_message_id msg_id)) message_ids.

Definition gmail_mark_as_read (message_ids : list string) : M W dict :=
  try_except
    (match message_ids with
     | [] => ret (failure "No message IDs provided")
     | _ =>
         match invalid_ids message_ids with
         | _ :: _ =>
             ret (failure ("Invalid message IDs: "
                             ++ repr_list repr (invalid_ids message_ids)))
         | [] =>
             gmail <- get_gmail_client ;;
             '(success_count, failed_ids) <- batch (mark_as_read gmail) message_ids ;;
             let total := str_of_Z (Z.of_nat (List.length message_ids)) in
             let result :=
               [ ("success", JBool (0 <? success_count)%Z);
                 ("marked_as_read", JNum success_count);
                 ("total_requested", JNum (Z.of_nat (List.length message_ids)));
                 ("message", JStr ("Marked " ++ str_of_Z success_count ++ "/"
                                     ++ total ++ " messages as read")) ] in
             match failed_ids with
             | [] => ret result
             | _ => ret (dict_set "failed_ids" (JArr (map JStr failed_ids)) result)
             end
         end
     end)
    (fun e => ret (failure ("Failed to mark messages as read: " ++ exn_str e))).

Definition gmail_delete_messages (message_ids : list string) : M W dict :=
  try_except
    (match message_ids with
     | [] => ret (failure "No message IDs provided")
     | _ =>
         match invalid_ids message_ids with
         | _ :: _ =>
             ret (failure ("Invalid message IDs: "
                             ++ repr_list repr (invalid_ids message_ids)))
         | [] =>
             gmail <- get_gmail_client ;;
             '(success_count, failed_ids) <- batch (delete_message gmail) message_ids ;;
             let total := str_of_Z (Z.of_nat (List.length message_ids)) in
             let result :=
               [ ("success", JBool (0 <? success_count)%Z);
                 ("deleted", JNum success_count);
                 ("total_requested", JNum (Z.of_nat (List.length message_ids)));
                 ("message", JStr ("Deleted " ++ str_of_Z success_count ++ "/"
                                     ++ total ++ " messages")) ] in
             match failed_ids with
             | [] => ret result
             | _ =>
                 ret (dict_set "warning" (JStr "Some messages could not be deleted")
                        (dict_set "failed_ids" (JArr (map JStr failed_ids)) result))
             end
         end
     end)
    (fun e => ret (failure ("Failed to delete messages: " ++ exn_str e))).

Definition gmail_get_stats (include_unread : bool) : M W dict :=
  try_except
    (gmail <- get_gmail_client ;;
     sv <- get_service_global ;;
     profile <- match sv with
                | Some sv => call EvProfile (api_get_profile sv)
                | None => raise (AttributeError
                            "'NoneType' object has no attribute 'users'")
                end ;;
     let stats :=
       [ ("success", JBool true);
         ("email_address", JStr (or_default (emailAddress profile) "Unknown"));
         ("total_messages",
          JNum (match messagesTotal profile with Some n => n | None => 0%Z end));
         ("total_threads",
          JNum (match threadsTotal profile with Some n => n | None => 0%Z end));
         ("history_id", JStr (or_default (historyId profile) "Unknown")) ] in
     if include_unread then
       (** [gmail.search_messages(is_unread=True, max_results=100)]:
           [search_messages] has no parameter [max_results], so the call
           raises before the client does anything. *)
       try_except
         (raise (TypeError
            "GmailClient.search_messages() got an unexpected keyword argument 'max_results'"))
         (fun e =>
            ret (dict_set "unread_count"
                   (JStr ("Error counting unread: " ++ exn_str e)) stats))
     else ret stats)
    (fun e => ret (failure ("Failed to get stats: " ++ exn_str e))).

Definition gmail_send_message_with_attachment
  (to subject body file_path cc : string) : M W dict :=
  try_except
    (if negb (validate_email_address to) then
       ret (failure "Invalid recipient email address")
     else if is_blank subject then ret (failure "Subject cannot be empty")
     else if is_blank body then ret (failure "Body cannot be empty")
     else
       found <- ask (path_exists file_path) ;;
       if negb found then ret (failure ("File not found: " ++ file_path))
       else
         gmail <- get_gmail_client ;;
         result <- send_message_with_attachment gmail to subject body file_path ;;
         match result with
         | Some sent_id =>
             ret [ ("success", JBool true);
                   ("message", JStr "Email with attachment sent successfully");
                   ("message_id", JStr sent_id);
                   ("to", JStr to);
                   ("subject", JStr subject);
                   ("attachment", JStr (basename file_path)) ]
         | None => ret (failure "Failed to send email with attachment")
         end)
    (fun e => ret (failure ("Failed to send message with attachment: " ++ exn_str e))).

(** A call of one of the eight tools, with its arguments. *)
Inductive tool_call : Type :=
| ListMessages (query : string) (max_results : Z)
| GetMessage (message_id : string)
| SendMessage (to subject body cc bcc : string)
| SearchMessages (sender subject after_date before_date : option string)
    (has_attachment is_unread : bool) (max_results : Z)
| MarkAsRead (message_ids : list string)
| DeleteMessages (message_ids : list string)
| GetStats (include_unread : bool)
| SendMessageWithAttachment (to subject body file_path cc : string).

Definition run_tool (c : tool_call) : M W dict :=
  match c with
  | ListMessages query max_results => gmail_list_messages query max_results
  | GetMessage message_id => gmail_get_message message_id
  | SendMessage to subject body cc bcc => gmail_send_message to subject body cc bcc
  | SearchMessages sender subject after_date before_date
      has_attachment is_unread max_results =>
      gmail_search_messages sender subject after_date before_date
        has_attachment is_unread max_results
  | MarkAsRead message_ids => gmail_mark_as_read message_ids
  | DeleteMessages message_ids => gmail_delete_messages message_ids
  | GetStats include_unread => gmail_get_stats include_unread
  | SendMessageWithAttachment to subject body file_path cc =>
      gmail_send_message_with_attachment to subject body file_path cc
  end.

End Tools.

(** ** The specification's wording of the pure operations *)

(** SearchFilter of the specification: the filter parameters of
    [gmail_search_messages]. *)
Record SearchFilter : Type := mkFilter {
  sf_sender : option string;
  sf_subject : option string;
  sf_after_date : option string;
  sf_before_date : option string;
  sf_has_attachment : bool;
  sf_is_unread : bool
}.

(** [buildQuery]: the query [gmail_search_messages] has the client build
    for a filter; [before_date] is not among the arguments it passes on. *)
Definition buildQuery (f : SearchFilter) : string :=
  search_query (sf_sender f) (sf_subject f) (sf_after_date f)
    (sf_has_attachment f) (sf_is_unread f).

(** The clauses in the specification's fixed order, each with the test
    that makes its field active. *)
Definition clauses (f : SearchFilter) : list (bool * string) :=
  [ (opt_truthy (sf_sender f), ("from:" ++ or_default (sf_sender f) "")%string);
    (opt_truthy (sf_subject f),
     ("subject:" ++ dquote ++ or_default (sf_subject f) "" ++ dquote)%string);
    (opt_truthy (sf_after_date f),
     ("after:" ++ or_default (sf_after_date f) "")%string);
    (sf_has_attachment f, "has:attachment");
    (sf_is_unread f, "is:unread") ].

Definition buildQuery_spec (f : SearchFilter) : string :=
  join " " (map snd (filter fst (clauses f))).

(** What the scan of the specification does with one child. *)
Inductive verdict : Type :=
| Return (r : result string)
| NextSibling.

Section ExtractSpec.
Variable decode : string -> result string.
Variable recurse : MessagePart -> result string.

(** A child tagged text/plain with inline data is decoded and returned;
    otherwise a child with children is recursed into, and the scan moves
    on only if the result is empty. *)
Definition visit (child : MessagePart) : verdict :=
  match plain_data child with
  | Some d => Return (decode d)
  | None =>
      match parts child with
      | Some _ =>
          match recurse child with
          | Ok EmptyString => NextSibling
          | r => Return r
          end
      | None => NextSibling
      end
  end.

(** Children are scanned in order and the first verdict to return wins. *)
Definition first_match : list MessagePart -> result string :=
  fix scan (children : list MessagePart) : result string :=
    match children with
    | [] => Ok ""
    | child :: siblings =>
        match visit child with
        | Return r => r
        | NextSibling => scan siblings
        end
    end.
End ExtractSpec.

Fixpoint extractBody_spec (decode : string -> result string)
  (node : MessagePart) : result string :=
  match parts node with
  | Some children => first_match decode (extractBody_spec decode) children
  | None =>
      match plain_data node with
      | Some d => decode d
      | None => Ok ""
      end
  end.

(** A part tagged text/plain occurs somewhere in the tree. *)
Fixpoint has_text_plain (p : MessagePart) : bool :=
  String.eqb (mimeType p) "text/plain" ||
  match parts p with
  | Some ps => existsb has_text_plain ps
  | None => false
  end.

(** ** A simulated world

    A mailbox held in memory, a broker with a fixed answer and a network
    that is up or down: an instance of [External] on which the tools run
    by computation. *)

Record Sim : Type := mkSim {
  sim_env : list (string * string);
  sim_broker : result dict;
  sim_online : bool;
  sim_mailbox : list Message
}.

(** The value of a character of the URL-safe base64 alphabet. *)
Definition sextet (c : ascii) : option N :=
  let n := N_of_ascii c in
  if (65 <=? n)%N && (n <=? 90)%N then Some (n - 65)%N
  else if (97 <=? n)%N && (n <=? 122)%N then Some (n - 71)%N
  else if (48 <=? n)%N && (n <=? 57)%N then Some (n + 4)%N
  else if (n =? 45)%N then Some 62%N
  else if (n =? 95)%N then Some 63%N
  else None.

Definition byte_chr (n : N) : ascii := ascii_of_N (n mod 256).

(** Decoding of padded URL-safe base64, four characters at a time.  The
    bytes decoded are the text, a [str] being its UTF-8 bytes.  Unlike
    Python's decoder this one refuses a character outside the alphabet
    instead of dropping it, and it does not check that the bytes are
    well-formed UTF-8: it stands for [b64decode_utf8] on padded input over
    the alphabet that encodes UTF-8 text, such as the data the runs below
    give it. *)
Fixpoint sim_b64decode (s : string) : result string :=
  match s with
  | EmptyString => Ok EmptyString
  | String a (String b (String c (String d rest))) =>
      match sextet a, sextet b with
      | Some x, Some y =>
          let b1 := byte_chr (x * 4 + y / 16) in
          match sextet c, sextet d with
          | Some z, Some t =>
              rbind (sim_b64decode rest) (fun tail =>
              Ok (String b1 (String (byte_chr (y * 16 + z / 4))
                    (String (byte_chr (z * 64 + t)) tail))))
          | Some z, None =>
              if Ascii.eqb d "=" && String.eqb rest ""
              then Ok (String b1 (String (byte_chr (y * 16 + z / 4)) EmptyString))
              else Raise (ValueError "Invalid base64-encoded string")
          | None, _ =>
              if Ascii.eqb c "=" && Ascii.eqb d "=" && String.eqb rest ""
              then Ok (String b1 EmptyString)
              else Raise (ValueError "Invalid base64-encoded string")
          end
      | _, _ => Raise (ValueError "Invalid base64-encoded string")
      end
  | _ => Raise (ValueError "Incorrect padding")
  end.

(** The character of the URL-safe base64 alphabet for a value below 64. *)
Definition sextet_chr (n : N) : ascii :=
  if (n <? 26)%N then ascii_of_N (n + 65)
  else if (n <? 52)%N then ascii_of_N (n + 71)
  else if (n <? 62)%N then ascii_of_N (n - 4)
  else if (n =? 62)%N then ascii_of_nat 45
  else ascii_of_nat 95.

(** [base64.urlsafe_b64encode(s).decode()], three bytes at a time. *)
Fixpoint sim_b64encode (s : string) : string :=
  match s with
  | EmptyString => EmptyString
  | String a EmptyString =>
      let x := N_of_ascii a in
      String (sextet_chr (x / 4)) (String (sextet_chr (x mod 4 * 16)) "==")
  | String a (String b EmptyString) =>
      let x := N_of_ascii a in
      let y := N_of_ascii b in
      String (sextet_chr (x / 4))
        (String (sextet_chr (x mod 4 * 16 + y / 16))
           (String (sextet_chr (y mod 16 * 4)) "="))
  | String a (String b (String c rest)) =>
      let x := N_of_ascii a in
      let y := N_of_ascii b in
      let z := N_of_ascii c in
      String (sextet_chr (x / 4))
        (String (sextet_chr (x mod 4 * 16 + y / 16))
           (String (sextet_chr (y mod 16 * 4 + z / 64))
              (String (sextet_chr (z mod 64)) (sim_b64encode rest))))
  end.

Definition is_printable (c : ascii) : bool :=
  let n := nat_of_ascii c in (32 <=? n)%nat && (n <=? 126)%nat.

Fixpoint all_printable (s : string) : bool :=
  match s with
  | EmptyString => true
  | String c s' => is_printable c && all_printable s'
  end.

Definition newline : string := String (ascii_of_nat 10) EmptyString.

(** What [MIMEText(body)] with its headers serialises to, for text that
    the email package passes through as it is: printable ASCII on one
    line, the header lines short enough not to be folded.  The simulation
    composes no other mail. *)
Definition sim_mime_text (to subject body : string) (from_email : option string)
  : result string :=
  if all_printable to && all_printable subject && all_printable body
     && all_printable (or_default from_email "")
     && (String.length to <=? 60)%nat && (String.length subject <=? 60)%nat
     && (String.length (or_default from_email "") <=? 60)%nat
  then
    Ok (sim_b64encode
          ("Content-Type: text/plain; charset=" ++ dquote ++ "us-ascii" ++ dquote
           ++ newline ++ "MIME-Version: 1.0" ++ newline
           ++ "Content-Transfer-Encoding: 7bit" ++ newline
           ++ "to: " ++ to ++ newline
           ++ "subject: " ++ subject ++ newline
           ++ (if opt_truthy from_email
               then "from: " ++ or_default from_email "" ++ newline
               else "")
           ++ newline ++ body))
  else Raise (RemoteError "the simulation composes plain ASCII mail only").

Definition sim_refs (w : Sim) : list MessageRef :=
  map (fun m => mkRef (id m)) (sim_mailbox w).

Definition sim_has (message_id : string) (w : Sim) : bool :=
  existsb (fun m => String.eqb (id m) message_id) (sim_mailbox w).

Definition sim_set_mailbox (w : Sim) (box : list Message) : Sim :=
  mkSim (sim_env w) (sim_broker w) (sim_online w) box.

Definition sim_down {A : Type} (w : Sim) : result A * Sim :=
  (Raise (RemoteError "HttpError 503: The service is currently unavailable."), w).

Definition sim_missing {A : Type} (w : Sim) : result A * Sim :=
  (Raise (RemoteError "HttpError 404: Requested entity was not found."), w).

Definition sim_mark_read (message_id : string) (m : Message) : Message :=
  if String.eqb (id m) message_id
  then mkMessage (id m) (threadId m)
         (option_map (filter (fun l => negb (String.eqb l "UNREAD"))) (labelIds m))
         (snippet m) (payload m)
  else m.

#[export] Instance sim_external : External Sim := {|
  repr := fun s => ("'" ++ s ++ "'")%string;
  getenv := fun k w =>
    match find (fun kv => String.eqb (fst kv) k) (sim_env w) with
    | Some kv => Some (snd kv)
    | None => None
    end;
  path_exists := fun _ _ => false;
  get_connection_credentials := fun _ _ w => (sim_broker w, w);
  (** google-auth: credentials are valid when they have a token and are
      not expired, and credentials without an expiry, as both builders
      make them, never expire *)
  creds_valid := fun c _ => match token c with JNull => false | _ => true end;
  creds_refresh := fun c w =>
    (Ok (mkCredentials (JStr "ya29.refreshed") (refresh_token c) (token_uri c)
           (client_id c) (client_secret c) (scopes c)), w);
  build := fun _ w => (Ok tt, w);
  api_list := fun _ _ n w =>
    if sim_online w then
      (Ok (mkListResponse
             (match firstn (Z.to_nat n) (sim_refs w) with
              | [] => None
              | l => Some l
              end)), w)
    else sim_down w;
  api_get := fun _ message_id w =>
    if sim_online w then
      match find (fun m => String.eqb (id m) message_id) (sim_mailbox w) with
      | Some m => (Ok m, w)
      | None => sim_missing w
      end
    else sim_down w;
  (** the message sent is accepted and not kept in the mailbox *)
  api_send := fun _ _ w =>
    if sim_online w then (Ok "18c2f0a1b2c3d4e5", w) else sim_down w;
  api_modify := fun _ message_id w =>
    if sim_online w then
      if sim_has message_id w
      then (Ok tt, sim_set_mailbox w (map (sim_mark_read message_id) (sim_mailbox w)))
      else sim_missing w
    else sim_down w;
  api_delete := fun _ message_id w =>
    if sim_online w then
      if sim_has message_id w
      then (Ok tt, sim_set_mailbox w
                     (filter (fun m => negb (String.eqb (id m) message_id))
                        (sim_mailbox w)))
      else sim_missing w
    else sim_down w;
  api_get_profile := fun _ w =>
    if sim_online w then
      (Ok (mkProfile (Some "me@example.com")
             (Some (Z.of_nat (List.length (sim_mailbox w)))) None None), w)
    else sim_down w;
  b64decode_utf8 := sim_b64decode;
  mime_text_raw := sim_mime_text;
  mime_multipart_raw := fun _ _ _ _ w => sim_down w
|}.

Definition init {W : Type} (w : W) : state W := mkState w [] None None.

(** A flat broker answer, with a refresh token. *)
Definition flat_response : dict :=
  [ ("access_token", JStr "ya29.a0AfH6SMB"); ("refresh_token", JStr "1//0gkL");
    ("expires_at", JStr "2024-01-01T00:00:00Z") ].

(** A broker answer whose ["credentials"] object holds no access token,
    with a ["token"] next to it. *)
Definition mixed_response : dict :=
  [ ("credentials", JObj [ ("type", JStr "OAUTH2") ]); ("token", JStr "ya29.tok") ].

Definition leaf (mime : string) (d : option string) : MessagePart :=
  mkPart mime None (Some (mkBody d)) None.

Definition multipart (mime : string) (children : list MessagePart) : MessagePart :=
  mkPart mime None (Some (mkBody None)) (Some children).

(** multipart/mixed [ multipart/alternative [ text/html, text/plain ],
    application/pdf ] *)
Definition nested_payload : MessagePart :=
  multipart "multipart/mixed"
    [ multipart "multipart/alternative"
        [ leaf "text/html" (Some "PGI-SGk8L2I-");
          leaf "text/plain" (Some "SGVsbG8sIHdvcmxkIQ==") ];
      leaf "application/pdf" None ].

(** multipart/related [ text/html, image/png ]: no text/plain part. *)
Definition html_only_payload : MessagePart :=
  multipart "multipart/related"
    [ leaf "text/html" (Some "PGI-SGk8L2I-"); leaf "image/png" None ].

Definition mail (message_id : string) (labels : list string) (p : MessagePart)
  : Message :=
  mkMessage message_id (Some "t1") (Some labels) (Some "Hello, world!") (Some p).

Definition sim_env0 : list (string * string) :=
  [ ("GMAIL_CONNECTION_ID", "conn-1"); ("NANGO_PROVIDER_CONFIG_KEY", "google") ].

(** Twelve messages in the mailbox. *)
Definition twelve : list Message :=
  map (fun k => mail ("m" ++ str_of_Z (Z.of_nat k)) ["INBOX"; "UNREAD"] nested_payload)
    (seq 1 12).

(** The broker answers but the mail service is down. *)
Definition world_down : Sim :=
  mkSim sim_env0 (Ok flat_response) false
    [ mail "m1" ["INBOX"; "UNREAD"] nested_payload ].

(** The mailbox holds [m1] but not [m2]. *)
Definition world_one : Sim :=
  mkSim sim_env0 (Ok flat_response) true
    [ mail "m1" ["INBOX"; "UNREAD"] nested_payload ].

Definition world_twelve : Sim :=
  mkSim sim_env0 (Ok flat_response) true twelve.

(** Induction on a part tree: at a node, the property holds of every child. *)
Section PartInduction.
Variable P : MessagePart -> Prop.
Hypothesis leaf_case : forall m h b, P (mkPart m h b None).
Hypothesis node_case :
  forall m h b ps, Forall P ps -> P (mkPart m h b (Some ps)).

Fixpoint MessagePart_tree_ind (p : MessagePart) : P p :=
  match p with
  | mkPart m h b None => leaf_case m h b
  | mkPart m h b (Some ps) =>
      node_case m h b ps
        ((fix children (l : list MessagePart) : Forall P l :=
            match l with
            | [] => Forall_nil P
            | c :: l' => Forall_cons c (MessagePart_tree_ind c) (children l')
            end) ps)
  end.
End PartInduction.

(** The state after a logged call that left the world as [w]. *)
Definition logged {W : Type} (s : state W) (w : W) (evs : list event) : state W :=
  mkState w (trace s ++ evs) (_gmail_client s) (_gmail_service s).


(** Events of the authentication. *)
Definition auth_event (ev : event) : Prop :=
  match ev with
  | EvBroker _ _ | EvBuild _ => True
  | _ => False
  end.

(** The messages [list_messages] hands back for an answer of the list call. *)
Definition listed (r : result ListResponse) : list MessageRef :=
  match r with
  | Ok res => match messages res with Some l => l | None => [] end
  | Raise _ => []
  end.




(** The response carries a boolean [success] field. *)
Definition has_success (resp : dict) : Prop :=
  exists b : bool, dict_get "success" resp = Some (JBool b).

(** ** gmail_auth.py: configuration and the broker request *)

(** [s.replace('', new)]: [new] before every character and at the end. *)
Fixpoint interleave (new s : string) : string :=
  match s with
  | EmptyString => new
  | String c s' => (new ++ String c (interleave new s'))%string
  end.

(** The scan of [s.replace(old, new)] for a non-empty [old]: occurrences
    are taken from left to right and do not overlap; [skip] counts the
    characters of the occurrence just replaced that are still to pass. *)
Fixpoint replace_from (old new : string) (skip : nat) (s : string) : string :=
  match s with
  | EmptyString => EmptyString
  | String c s' =>
      match skip with
      | S k => replace_from old new k s'
      | O =>
          if String.prefix old s
          then (new ++ replace_from old new (String.length old - 1) s')%string
          else String c (replace_from old new 0 s')
      end
  end.

(** [s.replace(old, new)] *)
Definition str_replace (old new s : string) : string :=
  if String.eqb old "" then interleave new s else replace_from old new 0 s.

(** [s.upper()], byte by byte: the ASCII letters are raised, as on the
    ASCII keys the code passes to [get_variable]. *)
Definition upper_char (c : ascii) : ascii :=
  let n := nat_of_ascii c in
  if (97 <=? n)%nat && (n <=? 122)%nat then ascii_of_nat (n - 32) else c.

Fixpoint str_upper (s : string) : string :=
  match s with
  | EmptyString => EmptyString
  | String c s' => String (upper_char c) (str_upper s')
  end.

(** The name [get_variable] looks up:
    [key.replace('f/secrets/', '').replace('/', '_').upper()]. *)
Definition env_key (key : string) : string :=
  str_upper (str_replace "/" "_" (str_replace "f/secrets/" "" key)).

Section Configuration.
Context {W : Type} {E : External W}.

(** [get_variable] *)
Definition get_variable (key : string) : M W string :=
  value <- ask (getenv (env_key key)) ;;
  if negb (opt_truthy value) then
    raise (ValueError ("Environment variable " ++ env_key key
                         ++ " not found. Please check your .env file."))
  else ret (or_default value "").

(** [requests.get(url, headers=headers, params=params)] followed by
    [raise_for_status()] and [json()]: the one step of
    [get_connection_credentials] that leaves the process. *)
Variable requests_get_json :
  string -> list (string * string) -> list (string * string) -> W -> result dict * W.

(** The source's [get_connection_credentials], spelled out; the field of
    the same name of [External] stands for it as a whole. *)
Definition get_connection_credentials_src (id providerConfigKey : string)
  : M W dict :=
  base_url <- get_variable "f/secrets/nango/nango_base_url" ;;
  secret_key <- get_variable "f/secrets/nango/nango_secret_key" ;;
  let url := (base_url ++ "/connection/" ++ id)%string in
  let params := [ ("provider_config_key", providerConfigKey);
                  ("refresh_token", "true") ] in
  let headers := [ ("Authorization", ("Bearer " ++ secret_key)%string) ] in
  call (EvBroker id providerConfigKey) (requests_get_json url headers params).

End Configuration.

(** ** test_connection.py *)

Definition required_vars : list string :=
  [ "NANGO_NANGO_BASE_URL"; "NANGO_NANGO_SECRET_KEY";
    "GMAIL_CONNECTION_ID"; "NANGO_PROVIDER_CONFIG_KEY" ].

(** [test_env_variables]: [all_good] starts true and is cleared by every
    variable that is unset or empty. *)
Definition test_env_variables {W : Type} {E : External W} (w : W) : bool :=
  fold_left
    (fun all_good var => if opt_truthy (getenv var w) then all_good else false)
    required_vars true.

(** ** Notions used in the statements *)

(** Events of the mail service and of the file system: everything but the
    authentication. *)
Definition mail_event (ev : event) : Prop :=
  match ev with
  | EvBroker _ _ | EvRefresh _ | EvBuild _ => False
  | _ => True
  end.

(** A computation keeps a property of the process state. *)
Definition preserves {W A : Type} (P : state W -> Prop) (m : M W A) : Prop :=
  forall s, P s -> P (snd (m s)).

(** The two globals go together: both unset, or the client wraps the
    service. *)
Definition consistent {W : Type} (s : state W) : Prop :=
  match _gmail_client s, _gmail_service s with
  | None, None => True
  | Some c, Some sv => service c = sv
  | _, _ => False
  end.

(** The client is [c], the service global is [sv], and since the trace
    was [t0] only the mail service and the file system have been called. *)
Definition serving {W : Type} (c : GmailClient) (sv : option Service)
  (t0 : list event) (s : state W) : Prop :=
  _gmail_client s = Some c /\ _gmail_service s = sv
  /\ exists evs, trace s = t0 ++ evs /\ Forall mail_event evs.

(** A session: tool calls one after the other. *)
Fixpoint run_tools {W : Type} {E : External W} (calls : list tool_call)
  (s : state W) : state W :=
  match calls with
  | [] => s
  | c :: calls' => run_tools calls' (snd (run_tool c s))
  end.

(** The inline data of the text/plain parts the scan of
    [extract_text_from_payload] can reach below [p], in document order;
    the parts below a text/plain part with data are not visited. *)
Fixpoint candidates (p : MessagePart) : list string :=
  match parts p with
  | Some ps =>
      flat_map (fun c => match plain_data c with
                         | Some d => [d]
                         | None => candidates c
                         end) ps
  | None => []
  end.

(** The same for a payload: a payload without parts is its own candidate. *)
Definition body_candidates (p : MessagePart) : list string :=
  match parts p with
  | Some _ => candidates p
  | None => match plain_data p with Some d => [d] | None => [] end
  end.

(** The last header called [k], as [headers.get(k)] finds it. *)
Definition last_header (k : string) (hs : list Header) : option Header :=
  find (fun h => String.eqb k (name h)) (rev hs).

(** The parts of a tree, the root included. *)
Fixpoint subparts (p : MessagePart) : list MessagePart :=
  p :: match parts p with
       | Some ps => flat_map subparts ps
       | None => []
       end.

(** The headers of a message, as [get_message_headers] goes through them. *)
Definition header_list (m : Message) : list Header :=
  match payload m with
  | Some p => match headers p with Some l => l | None => [] end
  | None => []
  end.

(** The simulated world with one file on disk, [/tmp/report.pdf], which
    cannot be read. *)
Definition sim_with_file : External Sim := {|
  repr := @repr Sim sim_external;
  getenv := @getenv Sim sim_external;
  path_exists := fun file_path _ => String.eqb file_path "/tmp/report.pdf";
  get_connection_credentials := @get_connection_credentials Sim sim_external;
  creds_valid := @creds_valid Sim sim_external;
  creds_refresh := @creds_refresh Sim sim_external;
  build := @build Sim sim_external;
  api_list := @api_list Sim sim_external;
  api_get := @api_get Sim sim_external;
  api_send := @api_send Sim sim_external;
  api_modify := @api_modify Sim sim_external;
  api_delete := @api_delete Sim sim_external;
  api_get_profile := @api_get_profile Sim sim_external;
  b64decode_utf8 := @b64decode_utf8 Sim sim_external;
  mime_text_raw := @mime_text_raw Sim sim_external;
  mime_multipart_raw := fun _ _ _ _ w =>
    (Raise (RemoteError "[Errno 13] Permission denied: '/tmp/report.pdf'"), w)
|}.

(** * Properties *)

(** ** Token extraction *)

Lemma truthy_JStr (t : string) : t <> "" -> truthy (JStr t) = true.
Proof.
  intros Ht. simpl. destruct (String.eqb_spec t ""); [contradiction | reflexivity].
Qed.

Lemma credentials_v2_located py_repr (r : dict) (t : string) (rt : json) :
  t <> "" ->
  locate_tokens r = Ok (JStr t, rt) ->
  credentials_v2 py_repr r
  = Ok (mkCredentials (JStr t) rt "https://oauth2.googleapis.com/token"
          JNull JNull SCOPES).
Proof.
  intros Ht Hloc. unfold credentials_v2. rewrite Hloc. cbn [rbind].
  rewrite (truthy_JStr t Ht). reflexivity.
Qed.

Lemma credentials_v2_falsy py_repr (r : dict) (v rt : json) :
  truthy v = false ->
  locate_tokens r = Ok (v, rt) ->
  exists msg, credentials_v2 py_repr r = Raise (ValueError msg).
Proof.
  intros Hv Hloc. unfold credentials_v2. rewrite Hloc. cbn [rbind].
  rewrite Hv. cbn [negb]. eexists. reflexivity.
Qed.

(** C1, as the code has it.  The first of the keys ["access_token"],
    ["credentials"], ["token"] that the response holds decides where the
    token is read: the top-level value, the ["access_token"] of the
    object under ["credentials"], or the value under ["token"].  A
    non-empty string read there becomes the credential's token, with the
    refresh token of the same place.  A value read there that is missing
    or empty makes the construction fail with a [ValueError], and the
    later places are not looked at. *)
Theorem C1_first_key_present_decides py_repr (r : dict) (t : string) :
  t <> "" ->
  (dict_get "access_token" r = Some (JStr t) ->
   credentials_v2 py_repr r
   = Ok (mkCredentials (JStr t) (py_get r "refresh_token")
           "https://oauth2.googleapis.com/token" JNull JNull SCOPES))
  /\ (forall d, dict_get "access_token" r = None ->
      dict_get "credentials" r = Some (JObj d) ->
      dict_get "access_token" d = Some (JStr t) ->
      credentials_v2 py_repr r
      = Ok (mkCredentials (JStr t) (py_get d "refresh_token")
              "https://oauth2.googleapis.com/token" JNull JNull SCOPES))
  /\ (dict_get "access_token" r = None ->
      dict_get "credentials" r = None ->
      dict_get "token" r = Some (JStr t) ->
      credentials_v2 py_repr r
      = Ok (mkCredentials (JStr t) (py_get r "refresh_token")
              "https://oauth2.googleapis.com/token" JNull JNull SCOPES))
  /\ (forall v, dict_get "access_token" r = Some v -> truthy v = false ->
      exists msg, credentials_v2 py_repr r = Raise (ValueError msg))
  /\ (forall d, dict_get "access_token" r = None ->
      dict_get "credentials" r = Some (JObj d) ->
      truthy (py_get d "access_token") = false ->
      exists msg, credentials_v2 py_repr r = Raise (ValueError msg)).
Proof.
  intros Ht. repeat split.
  - intros H. apply credentials_v2_located; [assumption |].
    unfold locate_tokens. rewrite H. reflexivity.
  - intros d H1 H2 H3. apply credentials_v2_located; [assumption |].
    unfold locate_tokens. rewrite H1, H2. unfold py_get at 1. rewrite H3.
    reflexivity.
  - intros H1 H2 H3. apply credentials_v2_located; [assumption |].
    unfold locate_tokens. rewrite H1, H2, H3. reflexivity.
  - intros v H Hv. apply (credentials_v2_falsy py_repr r v (py_get r "refresh_token"));
      [assumption |].
    unfold locate_tokens. rewrite H. reflexivity.
  - intros d H1 H2 Hv.
    apply (credentials_v2_falsy py_repr r (py_get d "access_token")
             (py_get d "refresh_token")); [assumption |].
    unfold locate_tokens. rewrite H1, H2. reflexivity.
Qed.

Lemma C1_first_key_present_decides_witness :
  "ya29.a0AfH6SMB" <> "" /\
  credentials_v2 repr flat_response
  = Ok (mkCredentials (JStr "ya29.a0AfH6SMB") (JStr "1//0gkL")
          "https://oauth2.googleapis.com/token" JNull JNull SCOPES).
Proof.
  split; [discriminate |].
  apply (proj1 (C1_first_key_present_decides repr flat_response "ya29.a0AfH6SMB"
                  ltac:(discriminate))).
  reflexivity.
Defined.

(** C1 as stated fails: in [mixed_response] the search of the
    specification finds the token under ["token"], the third place, but
    the code stops at the ["credentials"] key, finds no access token in
    it and raises. *)
Lemma C1_first_match_counterexample :
  buildCredential_spec mixed_response = Some (JStr "ya29.tok") /\
  forall py_repr, exists msg,
    credentials_v2 py_repr mixed_response = Raise (ValueError msg).
Proof.
  split; [reflexivity |].
  intros py_repr. eexists. reflexivity.
Qed.

(** ** Query construction *)

(** C7.  The query is a function of the filter, so equal filters give
    equal queries; and it is the specification's concatenation: one
    clause per active field (a string field is active when it is present
    and not empty), in the order sender, subject, after_date,
    has_attachment, is_unread, joined by single spaces, with the clause
    forms [from:<sender>], [subject:"<subject>"], [after:<after_date>],
    [has:attachment], [is:unread], the field's text being copied as it is. *)
Theorem C7_query_deterministic :
  (forall f g : SearchFilter, f = g -> buildQuery f = buildQuery g) /\
  (forall f : SearchFilter, buildQuery f = buildQuery_spec f).
Proof.
  split.
  - intros f g ->. reflexivity.
  - intros [sender subject after_date before_date has_attachment is_unread].
    unfold buildQuery, buildQuery_spec, search_query, clauses, opt_truthy.
    cbn [sf_sender sf_subject sf_after_date sf_has_attachment sf_is_unread].
    destruct sender as [s|]; [destruct (str_truthy s) |];
      (destruct subject as [j|]; [destruct (str_truthy j) |]);
      (destruct after_date as [a|]; [destruct (str_truthy a) |]);
      destruct has_attachment, is_unread; reflexivity.
Qed.

Lemma C7_query_deterministic_witness :
  let f := mkFilter (Some "alice@example.com") (Some "Q3 report")
             (Some "2024/01/01") None true true in
  let g := mkFilter (Some ("alice" ++ "@example.com")%string) (Some "Q3 report")
             (Some "2024/01/01") None (negb false) true in
  f = g /\
  buildQuery f = buildQuery g /\
  buildQuery f
  = ("from:alice@example.com subject:" ++ dquote ++ "Q3 report" ++ dquote
       ++ " after:2024/01/01 has:attachment is:unread")%string.
Proof.
  intros f g. split; [reflexivity |]. split.
  - apply (proj1 C7_query_deterministic f g). reflexivity.
  - rewrite (proj2 C7_query_deterministic f). reflexivity.
Defined.

(** ** Body extraction *)

Lemma str_truthy_empty (t : string) : str_truthy t = false -> t = "".
Proof.
  unfold str_truthy. destruct (String.eqb_spec t ""); [auto | discriminate].
Qed.

Lemma extract_unfold decode (p : MessagePart) :
  extract_text_from_payload decode p
  = match parts p with
    | Some ps => scan_parts decode (extract_text_from_payload decode) ps ""
    | None =>
        match plain_data p with
        | Some d => decode d
        | None => Ok ""
        end
    end.
Proof. destruct p; reflexivity. Qed.

Lemma extractBody_spec_unfold decode (p : MessagePart) :
  extractBody_spec decode p
  = match parts p with
    | Some ps => first_match decode (extractBody_spec decode) ps
    | None =>
        match plain_data p with
        | Some d => decode d
        | None => Ok ""
        end
    end.
Proof. destruct p; reflexivity. Qed.

(** The loop leaves [body_text] empty for as long as it runs on, so it is
    the first-match scan. *)
Lemma scan_parts_first_match decode (ps : list MessagePart) :
  Forall (fun c => extract_text_from_payload decode c = extractBody_spec decode c) ps ->
  scan_parts decode (extract_text_from_payload decode) ps ""
  = first_match decode (extractBody_spec decode) ps.
Proof.
  induction 1 as [| c rest Hc _ IH]; [reflexivity |].
  cbn [scan_parts first_match]. unfold visit.
  destruct (plain_data c) as [d |]; [reflexivity |].
  destruct (parts c) as [cs |]; [| exact IH].
  rewrite <- Hc.
  destruct (extract_text_from_payload decode c) as [t | e]; [| reflexivity].
  destruct t as [| a t']; [exact IH | reflexivity].
Qed.

Lemma extract_refines_spec decode (p : MessagePart) :
  extract_text_from_payload decode p = extractBody_spec decode p.
Proof.
  induction p as [m h b | m h b ps IH] using MessagePart_tree_ind.
  - reflexivity.
  - rewrite extract_unfold, extractBody_spec_unfold. cbn [parts].
    apply scan_parts_first_match, IH.
Qed.

Lemma no_text_plain_no_data (p : MessagePart) :
  has_text_plain p = false -> plain_data p = None.
Proof.
  destruct p as [m h b ps]. cbn [has_text_plain mimeType parts]. unfold plain_data.
  cbn [mimeType]. destruct (String.eqb m "text/plain"); [discriminate | reflexivity].
Qed.

Lemma no_text_plain_children m h b ps :
  has_text_plain (mkPart m h b (Some ps)) = false ->
  existsb has_text_plain ps = false.
Proof.
  cbn [has_text_plain mimeType parts]. intros H.
  apply orb_false_iff in H. apply H.
Qed.

Lemma scan_parts_empty decode (ps : list MessagePart) :
  Forall (fun c => has_text_plain c = false ->
                   extract_text_from_payload decode c = Ok "") ps ->
  existsb has_text_plain ps = false ->
  scan_parts decode (extract_text_from_payload decode) ps "" = Ok "".
Proof.
  induction 1 as [| c rest Hc _ IH]; [reflexivity |].
  cbn [existsb]. intros H. apply orb_false_iff in H. destruct H as [Hn Hrest].
  cbn [scan_parts]. rewrite (no_text_plain_no_data c Hn).
  destruct (parts c); [rewrite (Hc Hn); cbn |]; exact (IH Hrest).
Qed.

Lemma extract_no_text_plain decode (p : MessagePart) :
  has_text_plain p = false -> extract_text_from_payload decode p = Ok "".
Proof.
  induction p as [m h b | m h b ps IH] using MessagePart_tree_ind; intros Hn.
  - rewrite extract_unfold. cbn [parts].
    rewrite (no_text_plain_no_data _ Hn). reflexivity.
  - rewrite extract_unfold. cbn [parts].
    apply scan_parts_empty; [exact IH |].
    exact (no_text_plain_children m h b ps Hn).
Qed.

(** C5.  The code's loop is the specification's scan: children in order;
    a child tagged text/plain with inline data is decoded and returned at
    once; a child with children is recursed into and its result returned
    unless it is empty, in which case the next sibling is tried.  In
    particular, on a two-level tree whose only text/plain part is the
    second child [c12] of the first child, the decoded content of [c12]
    is what is returned. *)
Theorem C5_depth_first_first_match (decode : string -> result string) :
  (forall p : MessagePart,
     extract_text_from_payload decode p = extractBody_spec decode p) /\
  (forall m0 h0 b0 m1 h1 b1 (c11 c12 : MessagePart) (rest : list MessagePart)
          (d : string),
     plain_data (mkPart m1 h1 b1 (Some [c11; c12])) = None ->
     parts c11 = None ->
     has_text_plain c11 = false ->
     plain_data c12 = Some d ->
     existsb has_text_plain rest = false ->
     extract_text_from_payload decode
       (mkPart m0 h0 b0 (Some (mkPart m1 h1 b1 (Some [c11; c12]) :: rest)))
     = decode d).
Proof.
  split; [apply extract_refines_spec |].
  intros m0 h0 b0 m1 h1 b1 c11 c12 rest d H1 Hleaf H11 H12 Hrest.
  rewrite extract_unfold. cbn [parts scan_parts]. rewrite H1.
  rewrite extract_unfold. cbn [parts scan_parts].
  rewrite (no_text_plain_no_data c11 H11), Hleaf, H12.
  destruct (decode d) as [t | e]; [| reflexivity].
  destruct (str_truthy t) eqn:Ht; [reflexivity |].
  apply str_truthy_empty in Ht. subst t.
  apply scan_parts_empty; [| exact Hrest].
  apply Forall_forall. intros c _. apply extract_no_text_plain.
Qed.

Lemma C5_depth_first_first_match_witness :
  extract_text_from_payload sim_b64decode nested_payload = Ok "Hello, world!".
Proof.
  unfold nested_payload, multipart.
  rewrite (proj2 (C5_depth_first_first_match sim_b64decode)
             "multipart/mixed" None (Some (mkBody None))
             "multipart/alternative" None (Some (mkBody None))
             (leaf "text/html" (Some "PGI-SGk8L2I-"))
             (leaf "text/plain" (Some "SGVsbG8sIHdvcmxkIQ=="))
             [leaf "application/pdf" None] "SGVsbG8sIHdvcmxkIQ==");
    reflexivity.
Defined.

(** C6.  When no part of the payload tree is tagged text/plain, the body
    is the empty string, and nothing is raised whatever the decoder does.
    The same holds for a missing message and a message without payload. *)
Theorem C6_no_plain_text_gives_empty (decode : string -> result string)
  (message : option Message) :
  (forall m p, message = Some m -> payload m = Some p -> has_text_plain p = false) ->
  get_message_body decode message = Ok "".
Proof.
  intros H. unfold get_message_body.
  destruct message as [m |]; [| reflexivity].
  destruct (payload m) as [p |] eqn:Hp; [| reflexivity].
  apply extract_no_text_plain. exact (H m p eq_refl Hp).
Qed.

Lemma C6_no_plain_text_gives_empty_witness :
  get_message_body (fun _ => Raise (ValueError "Incorrect padding"))
    (Some (mail "m7" ["INBOX"] html_only_payload)) = Ok "".
Proof.
  apply C6_no_plain_text_gives_empty.
  intros m p Hm Hp. injection Hm as <-. injection Hp as <-. reflexivity.
Defined.

(** ** Running the client *)

Section ClientRuns.
Context {W : Type} {E : External W}.

Lemma logged_logged (s : state W) (w w' : W) (evs evs' : list event) :
  logged (logged s w evs) w' evs' = logged s w' (evs ++ evs').
Proof. unfold logged. cbn. rewrite app_assoc. reflexivity. Qed.

Lemma logged_nil (s : state W) : logged s (world s) [] = s.
Proof. destruct s. unfold logged. cbn. rewrite app_nil_r. reflexivity. Qed.

Lemma list_messages_run (gmail : GmailClient) (q : string) (n : Z) (s : state W) :
  list_messages gmail q n s
  = (Ok match fst (api_list (service gmail) q n (world s)) with
        | Ok r => match messages r with Some l => l | None => [] end
        | Raise _ => []
        end,
     logged s (snd (api_list (service gmail) q n (world s))) [EvList q n]).
Proof.
  unfold list_messages, try_except, bind, call, ret, logged.
  destruct (api_list (service gmail) q n (world s)) as [[r | e] w]; reflexivity.
Qed.

Lemma get_message_run (gmail : GmailClient) (message_id : string) (s : state W) :
  get_message gmail message_id s
  = (Ok match fst (api_get (service gmail) message_id (world s)) with
        | Ok m => Some m
        | Raise _ => None
        end,
     logged s (snd (api_get (service gmail) message_id (world s))) [EvGet message_id]).
Proof.
  unfold get_message, try_except, bind, call, ret, logged.
  destruct (api_get (service gmail) message_id (world s)) as [[r | e] w]; reflexivity.
Qed.

Lemma delete_message_run (gmail : GmailClient) (message_id : string) (s : state W) :
  delete_message gmail message_id s
  = (Ok match fst (api_delete (service gmail) message_id (world s)) with
        | Ok _ => true
        | Raise _ => false
        end,
     logged s (snd (api_delete (service gmail) message_id (world s)))
       [EvDelete message_id]).
Proof.
  unfold delete_message, try_except, bind, call, ret, logged.
  destruct (api_delete (service gmail) message_id (world s)) as [[r | e] w]; reflexivity.
Qed.

(** The detail loop fetches every message of the list, in order, and
    never raises; it keeps at most one entry per message. *)
Lemma detail_loop_run entry (gmail : GmailClient) (msgs : list MessageRef) :
  forall (acc : list json) (s : state W),
  exists (l : list json) (w : W),
    for_each msgs
      (fun msg detailed_messages =>
         message <- get_message gmail (ref_id msg) ;;
         match message with
         | Some m => ret (detailed_messages ++ [entry msg m])
         | None => ret detailed_messages
         end) acc s
    = (Ok l, logged s w (map (fun msg => EvGet (ref_id msg)) msgs))
    /\ (List.length l <= List.length acc + List.length msgs)%nat.
Proof.
  induction msgs as [| msg rest IH]; intros acc s.
  - exists acc, (world s). cbn [for_each map]. unfold ret.
    rewrite logged_nil. split; [reflexivity | lia].
  - cbn [for_each map]. unfold bind at 1. unfold bind at 1.
    rewrite get_message_run.
    destruct (fst (api_get (service gmail) (ref_id msg) (world s))) as [m | e].
    + unfold ret at 1.
      destruct (IH (acc ++ [entry msg m])
                  (logged s (snd (api_get (service gmail) (ref_id msg) (world s)))
                     [EvGet (ref_id msg)])) as (l & w & Hrun & Hlen).
      exists l, w. rewrite Hrun, logged_logged. split; [reflexivity |].
      rewrite length_app in Hlen. cbn [List.length] in *. lia.
    + unfold ret at 1.
      destruct (IH acc
                  (logged s (snd (api_get (service gmail) (ref_id msg) (world s)))
                     [EvGet (ref_id msg)])) as (l & w & Hrun & Hlen).
      exists l, w. rewrite Hrun, logged_logged. split; [reflexivity |].
      cbn [List.length]. lia.
Qed.

Lemma detail_messages_run entry (gmail : GmailClient) (msgs : list MessageRef)
  (s : state W) :
  exists (l : list json) (w : W),
    detail_messages entry gmail msgs s
    = (Ok l, logged s w (map (fun msg => EvGet (ref_id msg)) msgs))
    /\ (List.length l <= List.length msgs)%nat.
Proof.
  destruct (detail_loop_run entry gmail msgs [] s) as (l & w & Hrun & Hlen).
  exists l, w. split; [exact Hrun | exact Hlen].
Qed.

(** The batch loop calls the operation on every id, in order, whatever the
    outcome of the earlier calls; every id ends up counted or listed. *)
Lemma batch_delete_loop (gmail : GmailClient) (ids : list string) :
  forall (n : Z) (failed : list string) (s : state W),
  exists (n' : Z) (more : list string) (w : W),
    for_each ids
      (fun msg_id '(success_count, failed_ids) =>
         done <- delete_message gmail msg_id ;;
         if done : bool then ret ((success_count + 1)%Z, failed_ids)
         else ret (success_count, failed_ids ++ [msg_id]))
      (n, failed) s
    = (Ok (n', failed ++ more), logged s w (map EvDelete ids))
    /\ (n' + Z.of_nat (List.length more) = n + Z.of_nat (List.length ids))%Z
    /\ (n <= n')%Z
    /\ incl more ids.
Proof.
  induction ids as [| msg_id rest IH]; intros n failed s.
  - exists n, [], (world s). cbn [for_each map]. unfold ret.
    rewrite logged_nil, app_nil_r.
    split; [reflexivity | split; [cbn [List.length]; lia | split; [lia |]]].
    intros x Hx. exact Hx.
  - cbn [for_each map]. unfold bind at 1. unfold bind at 1.
    rewrite delete_message_run.
    destruct (fst (api_delete (service gmail) msg_id (world s))) as [u | e].
    + unfold ret at 1.
      destruct (IH (n + 1)%Z failed
                  (logged s (snd (api_delete (service gmail) msg_id (world s)))
                     [EvDelete msg_id])) as (n' & more & w & Hrun & Hsum & Hle & Hin).
      exists n', more, w. rewrite Hrun, logged_logged.
      split; [reflexivity | split; [cbn [List.length]; lia | split; [lia |]]].
      intros x Hx. right. exact (Hin x Hx).
    + unfold ret at 1.
      destruct (IH n (failed ++ [msg_id])
                  (logged s (snd (api_delete (service gmail) msg_id (world s)))
                     [EvDelete msg_id])) as (n' & more & w & Hrun & Hsum & Hle & Hin).
      exists n', (msg_id :: more), w. rewrite Hrun, logged_logged.
      rewrite <- app_assoc. cbn [app].
      split; [reflexivity | split; [cbn [List.length] in *; lia | split; [lia |]]].
      intros x [<- | Hx]; [left; reflexivity | right; exact (Hin x Hx)].
Qed.

End ClientRuns.

(** ** Batch delete *)

Lemma validate_message_id_nonempty (message_id : string) :
  message_id <> "" -> validate_message_id message_id = true.
Proof.
  destruct message_id as [| c rest]; [contradiction | reflexivity].
Qed.

(** C8.  For a batch [[id1, id2]] of well-formed ids whose first remote
    delete succeeds and whose second one raises, the tool answers
    [success: True], [deleted: 1], [failed_ids: [id2]] (with the number
    requested, a message and a warning), and both deletes have been sent.
    More generally the loop sends one delete per id, in order, whatever the
    earlier ones did, and every id is either counted or listed as failed. *)
Theorem C8_batch_delete_reports_failures {W : Type} {E : External W}
  (id1 id2 : string) (gmail : GmailClient) (s s1 : state W) (w1 w2 : W) (e : exn) :
  id1 <> "" -> id2 <> "" ->
  get_gmail_client s = (Ok gmail, s1) ->
  api_delete (service gmail) id1 (world s1) = (Ok tt, w1) ->
  api_delete (service gmail) id2 w1 = (Raise e, w2) ->
  (gmail_delete_messages [id1; id2] s
   = (Ok [ ("success", JBool true); ("deleted", JNum 1);
           ("total_requested", JNum 2);
           ("message", JStr "Deleted 1/2 messages");
           ("failed_ids", JArr [JStr id2]);
           ("warning", JStr "Some messages could not be deleted") ],
      logged s1 w2 [EvDelete id1; EvDelete id2]))
  /\ (forall (ids : list string) (s0 : state W),
      exists (n : Z) (failed : list string) (w : W),
        batch (delete_message gmail) ids s0
        = (Ok (n, failed), logged s0 w (map EvDelete ids))
        /\ (n + Z.of_nat (List.length failed) = Z.of_nat (List.length ids))%Z
        /\ incl failed ids).
Proof.
  intros H1 H2 Hclient Hd1 Hd2. split.
  - unfold gmail_delete_messages, try_except, invalid_ids, batch.
    cbn [filter for_each].
    rewrite (validate_message_id_nonempty id1 H1),
            (validate_message_id_nonempty id2 H2).
    cbn [negb]. unfold bind. rewrite Hclient.
    rewrite delete_message_run, Hd1. cbn [fst snd]. unfold ret at 1.
    rewrite delete_message_run. cbn [logged world]. rewrite Hd2.
    cbn [fst snd]. unfold ret, logged. cbn. rewrite <- app_assoc. reflexivity.
  - intros ids s0.
    destruct (batch_delete_loop gmail ids 0%Z [] s0)
      as (n & more & w & Hrun & Hsum & _ & Hin).
    exists n, more, w. split; [exact Hrun | split; [lia | exact Hin]].
Qed.

Lemma C8_batch_delete_reports_failures_witness :
  gmail_delete_messages ["m1"; "m2"] (init world_one)
  = (Ok [ ("success", JBool true); ("deleted", JNum 1);
          ("total_requested", JNum 2);
          ("message", JStr "Deleted 1/2 messages");
          ("failed_ids", JArr [JStr "m2"]);
          ("warning", JStr "Some messages could not be deleted") ],
     logged (snd (get_gmail_client (init world_one)))
       (sim_set_mailbox world_one []) [EvDelete "m1"; EvDelete "m2"]).
Proof.
  refine (proj1 (C8_batch_delete_reports_failures "m1" "m2"
                   (mkClient (mkService
                      (mkCredentials (JStr "ya29.a0AfH6SMB") (JStr "1//0gkL")
                         "https://oauth2.googleapis.com/token" JNull JNull SCOPES)))
                   (init world_one) (snd (get_gmail_client (init world_one)))
                   (sim_set_mailbox world_one []) (sim_set_mailbox world_one [])
                   (RemoteError "HttpError 404: Requested entity was not found.")
                   _ _ _ _ _)); try discriminate; reflexivity.
Defined.

(** ** Running the tools *)

Ltac break_match :=
  match goal with
  | |- context [match ?x with _ => _ end] =>
      lazymatch x with
      | context [match _ with _ => _ end] => fail
      | _ => destruct x eqn:?
      end
  end.

Ltac break_match_in H :=
  match type of H with
  | context [match ?x with _ => _ end] =>
      lazymatch x with
      | context [match _ with _ => _ end] => fail
      | _ => destruct x eqn:?
      end
  end.

Section ToolRuns.
Context {W : Type} {E : External W}.

Lemma in_range (n : Z) :
  (1 <= n <= 100)%Z -> (n <? 1)%Z || (100 <? n)%Z = false.
Proof.
  intros [H1 H2]. apply orb_false_iff. split; apply Z.ltb_ge; assumption.
Qed.

(** Setting the client up talks to the broker and builds the service, and
    sends nothing to the mail service. *)
Lemma get_gmail_client_trace (s : state W) :
  exists evs : list event,
    trace (snd (get_gmail_client s)) = trace s ++ evs /\ Forall auth_event evs.
Proof.
  unfold get_gmail_client, authenticate_gmail_with_nango_v2, try_except, bind,
    get_client_global, set_client_global, set_service_global, ask, call, lift,
    raise, ret.
  repeat break_match; cbn [snd trace];
    repeat rewrite <- app_assoc; cbn [app];
    first [ exists []; rewrite app_nil_r; split; [reflexivity | constructor]
          | eexists; split; [reflexivity | repeat constructor] ].
Qed.

Lemma get_gmail_client_no_list (s : state W) (q : string) (k : Z) :
  In (EvList q k) (trace (snd (get_gmail_client s))) -> In (EvList q k) (trace s).
Proof.
  destruct (get_gmail_client_trace s) as (evs & -> & Hevs). intros Hin.
  apply in_app_or in Hin. destruct Hin as [Hin | Hin]; [exact Hin |].
  rewrite Forall_forall in Hevs. destruct (Hevs _ Hin).
Qed.

End ToolRuns.

Section SearchRuns.
Context {W : Type} {E : External W}.

(** What [gmail_search_messages] does once its parameters are valid and
    the client is there: one list call, with the query built from the
    filter and [maxResults=10], then one get per message kept. *)
Lemma gmail_search_messages_run
  (sender subject after_date before_date : option string)
  (has_attachment is_unread : bool) (n : Z)
  (gmail : GmailClient) (s s1 : state W) :
  (1 <= n <= 100)%Z ->
  get_gmail_client s = (Ok gmail, s1) ->
  let q := search_query sender subject after_date has_attachment is_unread in
  let kept := firstn (Z.to_nat n) (listed (fst (api_list (service gmail) q 10 (world s1)))) in
  exists (resp : dict) (w : W),
    gmail_search_messages sender subject after_date before_date
      has_attachment is_unread n s
    = (Ok resp, logged s1 w (EvList q 10 :: map (fun msg => EvGet (ref_id msg)) kept))
    /\ dict_get "success" resp = Some (JBool true)
    /\ exists l : list json,
         dict_get "messages" resp = Some (JArr l)
         /\ dict_get "count" resp = Some (JNum (Z.of_nat (List.length l)))
         /\ (List.length l <= List.length kept)%nat.
Proof.
  intros Hn Hclient q kept.
  unfold gmail_search_messages, try_except. rewrite (in_range n Hn).
  unfold bind at 1. unfold bind at 1. rewrite Hclient.
  unfold bind at 1. unfold search_messages. rewrite list_messages_run.
  fold q. fold (listed (fst (api_list (service gmail) q 10 (world s1)))).
  subst kept.
  destruct (listed (fst (api_list (service gmail) q 10 (world s1))))
    as [| msg rest].
  - rewrite firstn_nil. unfold ret. cbn [map]. eexists. eexists.
    split; [reflexivity |]. split; [reflexivity |].
    exists []. repeat split. cbn. lia.
  - destruct (detail_messages_run search_entry gmail
                (firstn (Z.to_nat n) (msg :: rest))
                (logged s1 (snd (api_list (service gmail) q 10 (world s1)))
                   [EvList q 10])) as (l & w & Hrun & Hlen).
    rewrite Hrun, logged_logged. unfold ret. cbn [app].
    eexists. exists w. split; [reflexivity |]. split; [reflexivity |].
    exists l. repeat split. exact Hlen.
Qed.

Lemma listed_bounded (sv : Service) (q : string) (k : Z) (w : W) :
  (forall sv q k w r w' l,
     api_list sv q k w = (Ok r, w') -> messages r = Some l ->
     (Z.of_nat (List.length l) <= k)%Z) ->
  (0 <= k)%Z ->
  (Z.of_nat (List.length (listed (fst (api_list sv q k w)))) <= k)%Z.
Proof.
  intros Hapi Hk. destruct (api_list sv q k w) as [[r | e] w'] eqn:Hcall;
    cbn [fst listed]; [| cbn; lia].
  destruct (messages r) as [l |] eqn:Hl; [| cbn; lia].
  exact (Hapi sv q k w r w' l Hcall Hl).
Qed.

End SearchRuns.

(** ** Search *)

(** C4.  With nothing but [before_date] set the query is empty, whatever
    the date; more generally [before_date] never changes the query; and
    the query so built is the one [gmail_search_messages] sends to the
    mail service, in its only list call. *)
Theorem C4_before_date_not_in_query {W : Type} {E : External W} :
  (forall d : option string,
     buildQuery (mkFilter None None None d false false) = "")
  /\ (forall f : SearchFilter,
      opt_truthy (sf_sender f) = false ->
      opt_truthy (sf_subject f) = false ->
      opt_truthy (sf_after_date f) = false ->
      sf_has_attachment f = false ->
      sf_is_unread f = false ->
      buildQuery f = "")
  /\ (forall sender subject after_date d d' has_attachment is_unread,
      buildQuery (mkFilter sender subject after_date d has_attachment is_unread)
      = buildQuery (mkFilter sender subject after_date d' has_attachment is_unread))
  /\ (forall (f : SearchFilter) (n : Z) (gmail : GmailClient) (s s1 : state W),
      (1 <= n <= 100)%Z ->
      get_gmail_client s = (Ok gmail, s1) ->
      exists (resp : dict) (w : W) (gets : list string),
        gmail_search_messages (sf_sender f) (sf_subject f) (sf_after_date f)
          (sf_before_date f) (sf_has_attachment f) (sf_is_unread f) n s
        = (Ok resp, logged s1 w (EvList (buildQuery f) 10 :: map EvGet gets))).
Proof.
  split; [reflexivity |]. split; [| split; [reflexivity |]].
  - intros [sender subject after_date before_date has_attachment is_unread].
    unfold buildQuery, search_query, opt_truthy.
    cbn [sf_sender sf_subject sf_after_date sf_has_attachment sf_is_unread].
    intros H1 H2 H3 -> ->.
    destruct sender as [x |]; [rewrite H1 |];
      (destruct subject as [y |]; [rewrite H2 |]);
      (destruct after_date as [z |]; [rewrite H3 |]); reflexivity.
  - intros f n gmail s s1 Hn Hclient.
    destruct (gmail_search_messages_run (sf_sender f) (sf_subject f)
                (sf_after_date f) (sf_before_date f) (sf_has_attachment f)
                (sf_is_unread f) n gmail s s1 Hn Hclient)
      as (resp & w & Hrun & _).
    exists resp, w. eexists. rewrite Hrun, <- map_map. reflexivity.
Qed.

Lemma C4_before_date_not_in_query_witness :
  opt_truthy (Some "") = false /\
  buildQuery (mkFilter (Some "") None None (Some "2024/01/01") false false) = "".
Proof.
  split; [reflexivity |].
  apply (proj1 (proj2 (@C4_before_date_not_in_query Sim sim_external))
           (mkFilter (Some "") None None (Some "2024/01/01") false false));
    reflexivity.
Defined.

(** C10.  Provided the mail service returns no more messages than the
    [maxResults] it is asked for, [gmail_search_messages] with
    [max_results] between 1 and 100 returns at most [min(max_results, 10)]
    message summaries: every list call the tool makes carries
    [maxResults=10], since [search_messages] calls [list_messages] with
    the query alone. *)
Theorem C10_search_returns_at_most_ten {W : Type} {E : External W}
  (sender subject after_date before_date : option string)
  (has_attachment is_unread : bool) (max_results : Z) (s : state W) :
  (forall sv q k w r w' l,
     api_list sv q k w = (Ok r, w') -> messages r = Some l ->
     (Z.of_nat (List.length l) <= k)%Z) ->
  (1 <= max_results <= 100)%Z ->
  exists (resp : dict) (s' : state W),
    gmail_search_messages sender subject after_date before_date
      has_attachment is_unread max_results s = (Ok resp, s')
    /\ (forall l, dict_get "messages" resp = Some (JArr l) ->
        (Z.of_nat (List.length l) <= Z.min max_results 10)%Z)
    /\ (forall c, dict_get "count" resp = Some (JNum c) ->
        (c <= Z.min max_results 10)%Z)
    /\ (forall q k, In (EvList q k) (trace s') ->
        In (EvList q k) (trace s) \/ k = 10%Z).
Proof.
  intros Hapi Hn.
  destruct (get_gmail_client s) as [[gmail | e] s1] eqn:Hclient.
  - destruct (gmail_search_messages_run sender subject after_date before_date
                has_attachment is_unread max_results gmail s s1 Hn Hclient)
      as (resp & w & Hrun & _ & l & Hmsgs & Hcount & Hlen).
    exists resp, (logged s1 w
      (EvList (search_query sender subject after_date has_attachment is_unread) 10
         :: map (fun msg => EvGet (ref_id msg))
              (firstn (Z.to_nat max_results)
                 (listed (fst (api_list (service gmail)
                    (search_query sender subject after_date has_attachment is_unread)
                    10 (world s1))))))).
    split; [exact Hrun |].
    assert (Hbound : (Z.of_nat (List.length l) <= Z.min max_results 10)%Z).
    { pose proof (listed_bounded (service gmail)
                    (search_query sender subject after_date has_attachment is_unread)
                    10 (world s1) Hapi ltac:(lia)) as Hten.
      rewrite length_firstn in Hlen. lia. }
    split; [| split].
    + intros l' Hl'. rewrite Hmsgs in Hl'. injection Hl' as <-. exact Hbound.
    + intros c Hc. rewrite Hcount in Hc. injection Hc as <-. exact Hbound.
    + intros q k Hin. unfold logged in Hin. cbn [trace] in Hin.
      apply in_app_or in Hin. destruct Hin as [Hin | [Hin | Hin]].
      * left. apply get_gmail_client_no_list. rewrite Hclient. exact Hin.
      * right. injection Hin as _ <-. reflexivity.
      * apply in_map_iff in Hin. destruct Hin as (msg & Hmsg & _). discriminate.
  - exists (failure ("Failed to search messages: " ++ exn_str e)), s1.
    split; [| split; [| split]].
    + unfold gmail_search_messages, try_except. rewrite (in_range _ Hn).
      unfold bind at 1. unfold bind at 1. rewrite Hclient. reflexivity.
    + intros l Hl. discriminate.
    + intros c Hc. discriminate.
    + intros q k Hin. left. apply get_gmail_client_no_list.
      rewrite Hclient. exact Hin.
Qed.

Lemma sim_respects_maxResults :
  forall sv q k w r w' l,
    @api_list Sim sim_external sv q k w = (Ok r, w') -> messages r = Some l ->
    (Z.of_nat (List.length l) <= k)%Z.
Proof.
  intros sv q k w r w' l Hcall Hl. cbn [api_list sim_external] in Hcall.
  destruct (sim_online w); [| discriminate].
  injection Hcall as <- _. cbn [messages] in Hl.
  pose proof (length_firstn (Z.to_nat k) (sim_refs w)) as Hlen.
  destruct (firstn (Z.to_nat k) (sim_refs w)) as [| x rest]; [discriminate |].
  injection Hl as <-. cbn [List.length] in *. lia.
Qed.

Lemma C10_search_returns_at_most_ten_witness :
  exists (resp : dict) (s' : state Sim),
    gmail_search_messages None None None (Some "2024/01/01") false true 100
      (init world_twelve) = (Ok resp, s')
    /\ (forall l, dict_get "messages" resp = Some (JArr l) ->
        (Z.of_nat (List.length l) <= Z.min 100 10)%Z)
    /\ (forall c, dict_get "count" resp = Some (JNum c) ->
        (c <= Z.min 100 10)%Z)
    /\ (forall q k, In (EvList q k) (trace s') ->
        In (EvList q k) (trace (init world_twelve)) \/ k = 10%Z).
Proof.
  apply C10_search_returns_at_most_ten; [exact sim_respects_maxResults | lia].
Defined.

(** ** The tool boundary *)

Ltac run_body H :=
  unfold bind, ret, raise, lift, ask, try_except, get_service_global in H;
  repeat (break_match_in H; try discriminate H);
  try (injection H as <- _; eexists; reflexivity).

Section Boundary.
Context {W : Type} {E : External W}.

Lemma tool_boundary (body : M W dict) (h : exn -> string) :
  (forall s resp s', body s = (Ok resp, s') -> has_success resp) ->
  forall s, exists resp s',
    try_except body (fun e => ret (failure (h e))) s = (Ok resp, s')
    /\ has_success resp.
Proof.
  intros Hbody s. unfold try_except.
  destruct (body s) as [[resp | e] s'] eqn:Hrun.
  - exists resp, s'. split; [reflexivity | exact (Hbody s resp s' Hrun)].
  - eexists. eexists. split; [reflexivity |]. exists false. reflexivity.
Qed.

Lemma gmail_list_messages_boundary query max_results (s : state W) :
  exists resp s',
    gmail_list_messages query max_results s = (Ok resp, s') /\ has_success resp.
Proof.
  apply (tool_boundary _ (fun e => ("Failed to list messages: " ++ exn_str e)%string)).
  clear s. intros s resp s' H. run_body H.
Qed.

Lemma gmail_get_message_boundary message_id (s : state W) :
  exists resp s',
    gmail_get_message message_id s = (Ok resp, s') /\ has_success resp.
Proof.
  apply (tool_boundary _ (fun e => ("Failed to get message: " ++ exn_str e)%string)).
  clear s. intros s resp s' H. run_body H.
Qed.

Lemma gmail_send_message_boundary to subject body cc bcc (s : state W) :
  exists resp s',
    gmail_send_message to subject body cc bcc s = (Ok resp, s') /\ has_success resp.
Proof.
  apply (tool_boundary _ (fun e => ("Failed to send message: " ++ exn_str e)%string)).
  clear s. intros s resp s' H. run_body H.
Qed.

Lemma gmail_search_messages_boundary sender subject after_date before_date
  has_attachment is_unread max_results (s : state W) :
  exists resp s',
    gmail_search_messages sender subject after_date before_date
      has_attachment is_unread max_results s = (Ok resp, s')
    /\ has_success resp.
Proof.
  apply (tool_boundary _ (fun e => ("Failed to search messages: " ++ exn_str e)%string)).
  clear s. intros s resp s' H. run_body H.
Qed.

Lemma gmail_mark_as_read_boundary message_ids (s : state W) :
  exists resp s',
    gmail_mark_as_read message_ids s = (Ok resp, s') /\ has_success resp.
Proof.
  apply (tool_boundary _
           (fun e => ("Failed to mark messages as read: " ++ exn_str e)%string)).
  clear s. intros s resp s' H. run_body H.
Qed.

Lemma gmail_delete_messages_boundary message_ids (s : state W) :
  exists resp s',
    gmail_delete_messages message_ids s = (Ok resp, s') /\ has_success resp.
Proof.
  apply (tool_boundary _ (fun e => ("Failed to delete messages: " ++ exn_str e)%string)).
  clear s. intros s resp s' H. run_body H.
Qed.

Lemma gmail_get_stats_boundary include_unread (s : state W) :
  exists resp s',
    gmail_get_stats include_unread s = (Ok resp, s') /\ has_success resp.
Proof.
  apply (tool_boundary _ (fun e => ("Failed to get stats: " ++ exn_str e)%string)).
  clear s. intros s resp s' H. run_body H.
Qed.

Lemma gmail_send_message_with_attachment_boundary to subject body file_path cc
  (s : state W) :
  exists resp s',
    gmail_send_message_with_attachment to subject body file_path cc s
    = (Ok resp, s') /\ has_success resp.
Proof.
  apply (tool_boundary _
           (fun e => ("Failed to send message with attachment: " ++ exn_str e)%string)).
  clear s. intros s resp s' H. run_body H.
Qed.

End Boundary.

(** C3, as the code has it.  No exception crosses the tool boundary:
    every invocation of every tool returns a response mapping with a
    boolean [success] field.  An exception raised in the tool's own body,
    such as a failure to set the client up, is answered with
    [{success: False, error: "Failed to ...: <message>"}].  A failure of
    the remote list call does not get that far: [GmailClient.list_messages]
    catches it and returns an empty list, and [gmail_list_messages] answers
    [{success: True, count: 0, messages: [], message: "No messages found"}].
    A failure of the remote get call is caught in [GmailClient.get_message],
    which returns [None], and [gmail_get_message] answers
    [{success: False, error: "Message <id> not found"}]. *)
Theorem C3_no_exception_crosses_boundary {W : Type} {E : External W} :
  (forall (c : tool_call) (s : state W),
     exists resp s', run_tool c s = (Ok resp, s') /\ has_success resp)
  /\ (forall query max_results (s s1 : state W) e,
      (1 <= max_results <= 100)%Z ->
      get_gmail_client s = (Raise e, s1) ->
      gmail_list_messages query max_results s
      = (Ok (failure ("Failed to list messages: " ++ exn_str e)), s1))
  /\ (forall query max_results (gmail : GmailClient) (s s1 : state W) e w,
      (1 <= max_results <= 100)%Z ->
      get_gmail_client s = (Ok gmail, s1) ->
      api_list (service gmail) query max_results (world s1) = (Raise e, w) ->
      gmail_list_messages query max_results s
      = (Ok [ ("success", JBool true); ("count", JNum 0);
              ("messages", JArr []); ("message", JStr "No messages found") ],
         logged s1 w [EvList query max_results]))
  /\ (forall message_id (gmail : GmailClient) (s s1 : state W) e w,
      message_id <> "" ->
      get_gmail_client s = (Ok gmail, s1) ->
      api_get (service gmail) message_id (world s1) = (Raise e, w) ->
      gmail_get_message message_id s
      = (Ok (failure ("Message " ++ message_id ++ " not found")),
         logged s1 w [EvGet message_id])).
Proof.
  split; [| split; [| split]].
  - intros [query max_results | message_id | to subject body cc bcc
           | sender subject after_date before_date has_attachment is_unread max_results
           | message_ids | message_ids | include_unread
           | to subject body file_path cc] s; cbn [run_tool].
    + apply gmail_list_messages_boundary.
    + apply gmail_get_message_boundary.
    + apply gmail_send_message_boundary.
    + apply gmail_search_messages_boundary.
    + apply gmail_mark_as_read_boundary.
    + apply gmail_delete_messages_boundary.
    + apply gmail_get_stats_boundary.
    + apply gmail_send_message_with_attachment_boundary.
  - intros query max_results s s1 e Hn Hclient.
    unfold gmail_list_messages, try_except. rewrite (in_range _ Hn).
    unfold bind at 1. rewrite Hclient. reflexivity.
  - intros query max_results gmail s s1 e w Hn Hclient Hlist.
    unfold gmail_list_messages, try_except. rewrite (in_range _ Hn).
    unfold bind at 1. rewrite Hclient.
    unfold bind at 1. rewrite list_messages_run, Hlist. reflexivity.
  - intros message_id gmail s s1 e w Hid Hclient Hget.
    unfold gmail_get_message, try_except.
    rewrite (validate_message_id_nonempty _ Hid). cbn [negb].
    unfold bind at 1. rewrite Hclient.
    unfold bind at 1. rewrite get_message_run, Hget. reflexivity.
Qed.

Lemma C3_no_exception_crosses_boundary_witness :
  gmail_list_messages "is:unread" 25 (init world_down)
  = (Ok [ ("success", JBool true); ("count", JNum 0);
          ("messages", JArr []); ("message", JStr "No messages found") ],
     logged (snd (get_gmail_client (init world_down))) world_down
       [EvList "is:unread" 25]).
Proof.
  refine (proj1 (proj2 (proj2 (@C3_no_exception_crosses_boundary Sim sim_external)))
            "is:unread" 25%Z
            (mkClient (mkService
               (mkCredentials (JStr "ya29.a0AfH6SMB") (JStr "1//0gkL")
                  "https://oauth2.googleapis.com/token" JNull JNull SCOPES)))
            (init world_down) (snd (get_gmail_client (init world_down)))
            (RemoteError "HttpError 503: The service is currently unavailable.")
            world_down _ _ _); [lia | reflexivity | reflexivity].
Defined.

(** C3 as stated fails: with the mail service down, the remote list call
    raises, and [gmail_list_messages] answers [success: True] with no
    messages and no error. *)
Lemma C3_list_failure_reported_as_success :
  exists (gmail : GmailClient) (s1 : state Sim),
    get_gmail_client (init world_down) = (Ok gmail, s1)
    /\ fst (api_list (service gmail) "" 10 (world s1))
       = Raise (RemoteError "HttpError 503: The service is currently unavailable.")
    /\ fst (gmail_list_messages "" 10 (init world_down))
       = Ok [ ("success", JBool true); ("count", JNum 0);
              ("messages", JArr []); ("message", JStr "No messages found") ]
    /\ trace (snd (gmail_list_messages "" 10 (init world_down)))
       = trace s1 ++ [EvList "" 10].
Proof.
  eexists. eexists. split; [reflexivity |].
  split; [reflexivity |]. split; reflexivity.
Qed.

(** ** Token refresh *)

(** On no path does [get_gmail_client] refresh the credentials. *)
Lemma get_gmail_client_never_refreshes {W : Type} {E : External W}
  (s : state W) (c : Credentials) :
  In (EvRefresh c) (trace (snd (get_gmail_client s))) -> In (EvRefresh c) (trace s).
Proof.
  destruct (get_gmail_client_trace s) as (evs & -> & Hevs). intros Hin.
  apply in_app_or in Hin. destruct Hin as [Hin | Hin]; [exact Hin |].
  rewrite Forall_forall in Hevs. destruct (Hevs _ Hin).
Qed.

(** * Further properties of the code *)

(** ** Parameter validation *)

Lemma str_contains_app (c : ascii) (a b : string) :
  str_contains c (a ++ b) = str_contains c a || str_contains c b.
Proof.
  induction a as [| x a IH]; [reflexivity |].
  cbn [append str_contains]. rewrite IH, orb_assoc. reflexivity.
Qed.

Lemma after_first_split (c : ascii) (s rest : string) :
  after_first c s = Some rest <->
  exists l, s = (l ++ String c rest)%string /\ str_contains c l = false.
Proof.
  revert rest. induction s as [| x s IH]; intros rest; cbn [after_first].
  - split; [discriminate |]. intros (l & Hl & _). destruct l; discriminate.
  - destruct (Ascii.eqb_spec c x) as [-> | Hne].
    + split.
      * intros H. injection H as <-. exists EmptyString. split; reflexivity.
      * intros (l & Hl & Hno). destruct l as [| y l].
        -- cbn in Hl. injection Hl as <-. reflexivity.
        -- cbn in Hl. injection Hl as <- _. cbn in Hno.
           rewrite Ascii.eqb_refl in Hno. discriminate.
    + rewrite IH. split.
      * intros (l & -> & Hno). exists (String x l). split; [reflexivity |].
        cbn. destruct (Ascii.eqb_spec c x); [contradiction | exact Hno].
      * intros (l & Hl & Hno). destruct l as [| y l].
        -- cbn in Hl. injection Hl as Hx _. congruence.
        -- cbn in Hl. injection Hl as <- ->. exists l. split; [reflexivity |].
           cbn in Hno. apply orb_false_iff in Hno. apply Hno.
Qed.

Lemma after_first_none (c : ascii) (s : string) :
  after_first c s = None <-> str_contains c s = false.
Proof.
  induction s as [| x s IH]; cbn [after_first str_contains]; [tauto |].
  destruct (Ascii.eqb c x); cbn [orb]; [split; discriminate | exact IH].
Qed.

Lemma upto_split (c : ascii) (s : string) :
  str_contains c (upto c s) = false /\
  (str_contains c s = false -> upto c s = s) /\
  (forall m rest, s = (m ++ String c rest)%string -> str_contains c m = false ->
                  upto c s = m).
Proof.
  induction s as [| x s (IH1 & IH2 & IH3)]; cbn [upto str_contains].
  - split; [reflexivity |]. split; [reflexivity |].
    intros m rest H. destruct m; discriminate.
  - destruct (Ascii.eqb_spec c x) as [-> | Hne]; cbn [orb].
    + split; [reflexivity |]. split; [discriminate |].
      intros m rest H Hm. destruct m as [| y m]; [reflexivity |].
      cbn in H. injection H as <- _. cbn in Hm.
      rewrite Ascii.eqb_refl in Hm. discriminate.
    + split; [| split].
      * cbn. destruct (Ascii.eqb_spec c x); [contradiction | exact IH1].
      * intros H. rewrite (IH2 H). reflexivity.
      * intros m rest H Hm. destruct m as [| y m].
        -- cbn in H. injection H as Hx _. congruence.
        -- cbn in H. injection H as <- ->. cbn in Hm.
           apply orb_false_iff in Hm. rewrite (IH3 m rest eq_refl (proj2 Hm)).
           reflexivity.
Qed.

(** X1.  [validate_email_address] accepts exactly the strings [l @ d ...] in
    which the text [d] between the first and the second [@] (or the end)
    holds a dot; nothing is asked of the part before the [@], which may be
    empty, nor of what follows a second [@]. *)
Theorem validate_email_address_iff (email : string) :
  validate_email_address email = true <->
  exists l d : string,
    str_contains "@" l = false /\ str_contains "@" d = false /\
    str_contains "." d = true /\
    (email = (l ++ "@" ++ d)%string \/
     exists rest, email = (l ++ "@" ++ d ++ "@" ++ rest)%string).
Proof.
  unfold validate_email_address. split.
  - intros H. apply andb_prop in H. destruct H as [H Hdot].
    apply andb_prop in H. destruct H as [_ Hat].
    destruct (after_first "@" email) as [rest |] eqn:Hrest; [| discriminate].
    apply after_first_split in Hrest. destruct Hrest as (l & -> & Hl).
    exists l, (upto "@" rest).
    destruct (upto_split "@" rest) as (Hno & Hsame & Hcut).
    split; [exact Hl |]. split; [exact Hno |]. split; [exact Hdot |].
    destruct (after_first "@" rest) as [rest' |] eqn:Hsecond.
    + right. apply after_first_split in Hsecond.
      destruct Hsecond as (m & -> & Hm). exists rest'.
      rewrite (Hcut m rest' eq_refl Hm). reflexivity.
    + left. apply after_first_none in Hsecond. rewrite (Hsame Hsecond).
      reflexivity.
  - intros (l & d & Hl & Hd & Hdot & Hshape).
    assert (Hafter : exists rest, after_first "@" email = Some rest
                                  /\ upto "@" rest = d
                                  /\ str_contains "@" email = true
                                  /\ email <> "").
    { destruct Hshape as [-> | (rest & ->)].
      - exists d. split; [apply after_first_split; exists l; split; [reflexivity | exact Hl] |].
        split; [apply (proj1 (proj2 (upto_split "@" d)) Hd) |].
        split; [rewrite str_contains_app; cbn; apply orb_true_r |].
        destruct l; discriminate.
      - exists (d ++ "@" ++ rest)%string.
        split; [apply after_first_split; exists l; split; [reflexivity | exact Hl] |].
        split; [apply (proj2 (proj2 (upto_split "@" (d ++ "@" ++ rest)%string))
                         d rest eq_refl Hd) |].
        split; [rewrite str_contains_app; cbn; apply orb_true_r |].
        destruct l; discriminate. }
    destruct Hafter as (rest & -> & -> & -> & Hne).
    rewrite Hdot. unfold str_truthy.
    destruct (String.eqb_spec email ""); [contradiction | reflexivity].
Qed.

Lemma validate_email_address_iff_witness :
  validate_email_address "@b.c@" = true.
Proof.
  apply validate_email_address_iff.
  exists EmptyString, "b.c"%string.
  split; [reflexivity |]. split; [reflexivity |]. split; [reflexivity |].
  right. exists EmptyString. reflexivity.
Defined.

Lemma filter_In_nonempty {A : Type} (f : A -> bool) (x : A) (l : list A) :
  In x l -> f x = true -> filter f l <> [].
Proof.
  intros Hin Hf Hnil.
  assert (H : In x (filter f l)) by (apply filter_In; split; assumption).
  rewrite Hnil in H. destruct H.
Qed.

(** X2.  A call whose parameters are rejected touches nothing: the tool answers
    with the reason, the process state is as before, so that the client is
    not even set up, and nothing is sent to the broker or the mail
    service.  One malformed id rejects a whole batch.  A missing
    attachment is found out before the client is asked for. *)
Theorem rejected_calls_touch_nothing {W : Type} {E : External W} (s : state W) :
  (forall query n, (n < 1 \/ 100 < n)%Z ->
     gmail_list_messages query n s
     = (Ok (failure "max_results must be between 1 and 100"), s))
  /\ (forall sender subject after_date before_date has_attachment is_unread n,
      (n < 1 \/ 100 < n)%Z ->
      gmail_search_messages sender subject after_date before_date
        has_attachment is_unread n s
      = (Ok (failure "max_results must be between 1 and 100"), s))
  /\ gmail_get_message "" s = (Ok (failure "Invalid message ID provided"), s)
  /\ (forall to subject body cc bcc,
      validate_email_address to = false ->
      gmail_send_message to subject body cc bcc s
      = (Ok (failure "Invalid recipient email address"), s))
  /\ (forall to subject body cc bcc,
      validate_email_address to = true -> is_blank subject = true ->
      gmail_send_message to subject body cc bcc s
      = (Ok (failure "Subject cannot be empty"), s))
  /\ (forall to subject body cc bcc,
      validate_email_address to = true -> is_blank subject = false ->
      is_blank body = true ->
      gmail_send_message to subject body cc bcc s
      = (Ok (failure "Body cannot be empty"), s))
  /\ gmail_mark_as_read [] s = (Ok (failure "No message IDs provided"), s)
  /\ gmail_delete_messages [] s = (Ok (failure "No message IDs provided"), s)
  /\ (forall message_ids, In "" message_ids ->
      gmail_mark_as_read message_ids s
      = (Ok (failure ("Invalid message IDs: "
                        ++ repr_list repr (invalid_ids message_ids))), s)
      /\ gmail_delete_messages message_ids s
         = (Ok (failure ("Invalid message IDs: "
                           ++ repr_list repr (invalid_ids message_ids))), s))
  /\ (forall to subject body file_path cc,
      validate_email_address to = true -> is_blank subject = false ->
      is_blank body = false -> path_exists file_path (world s) = false ->
      gmail_send_message_with_attachment to subject body file_path cc s
      = (Ok (failure ("File not found: " ++ file_path)), s)).
Proof.
  assert (Hrange : forall n, (n < 1 \/ 100 < n)%Z ->
                             (n <? 1)%Z || (100 <? n)%Z = true).
  { intros n [H | H]; apply orb_true_iff; [left | right];
      apply Z.ltb_lt; exact H. }
  repeat match goal with |- _ /\ _ => split end.
  - intros query n Hn. unfold gmail_list_messages, try_except.
    rewrite (Hrange n Hn). reflexivity.
  - intros sender subject after_date before_date has_attachment is_unread n Hn.
    unfold gmail_search_messages, try_except. rewrite (Hrange n Hn). reflexivity.
  - reflexivity.
  - intros to subject body cc bcc Hto. unfold gmail_send_message, try_except.
    rewrite Hto. reflexivity.
  - intros to subject body cc bcc Hto Hsub. unfold gmail_send_message, try_except.
    rewrite Hto, Hsub. reflexivity.
  - intros to subject body cc bcc Hto Hsub Hbody.
    unfold gmail_send_message, try_except. rewrite Hto, Hsub, Hbody. reflexivity.
  - reflexivity.
  - reflexivity.
  - intros message_ids Hin.
    assert (Hbad : invalid_ids message_ids <> []).
    { apply (filter_In_nonempty _ ""%string); [exact Hin | reflexivity]. }
    unfold gmail_mark_as_read, gmail_delete_messages, try_except.
    destruct message_ids as [| x rest]; [destruct Hin |].
    destruct (invalid_ids (x :: rest)) as [| y bad]; [contradiction |].
    split; reflexivity.
  - intros to subject body file_path cc Hto Hsub Hbody Hfile.
    unfold gmail_send_message_with_attachment, try_except.
    rewrite Hto, Hsub, Hbody. cbn [negb]. unfold bind, ask. rewrite Hfile.
    reflexivity.
Qed.

Lemma rejected_calls_touch_nothing_witness :
  gmail_delete_messages ["m1"; ""] (init world_one)
  = (Ok (failure "Invalid message IDs: ['']"), init world_one)
  /\ gmail_send_message_with_attachment "a@b.com" "Report" "See attached."
       "/tmp/report.pdf" "" (init world_one)
     = (Ok (failure "File not found: /tmp/report.pdf"), init world_one).
Proof.
  pose proof (rejected_calls_touch_nothing (init world_one))
    as (_ & _ & _ & _ & _ & _ & _ & _ & Hbatch & Hfile).
  split.
  - exact (proj2 (Hbatch ["m1"; ""]%string (or_intror (or_introl eq_refl)))).
  - apply Hfile; reflexivity.
Defined.

(** ** The process-wide client *)

Lemma get_gmail_client_cached {W : Type} {E : External W}
  (s : state W) (c : GmailClient) :
  _gmail_client s = Some c -> get_gmail_client s = (Ok c, s).
Proof.
  intros Hc. unfold get_gmail_client, bind, get_client_global.
  rewrite Hc. reflexivity.
Qed.

Lemma get_gmail_client_stores {W : Type} {E : External W}
  (s s' : state W) (c : GmailClient) :
  _gmail_client s = None -> get_gmail_client s = (Ok c, s') ->
  _gmail_client s' = Some c /\ _gmail_service s' = Some (service c).
Proof.
  intros Hnone Hrun.
  unfold get_gmail_client, authenticate_gmail_with_nango_v2, try_except, bind,
    get_client_global, set_client_global, set_service_global, ask, call, lift,
    raise, ret in Hrun.
  rewrite Hnone in Hrun.
  repeat (break_match_in Hrun; try discriminate Hrun).
  all: injection Hrun as <- <-; split; reflexivity.
Qed.

Lemma get_gmail_client_failure {W : Type} {E : External W}
  (s s' : state W) (e : exn) :
  _gmail_client s = None -> get_gmail_client s = (Raise e, s') ->
  _gmail_client s' = None /\ _gmail_service s' = _gmail_service s.
Proof.
  intros Hnone Hrun.
  unfold get_gmail_client, authenticate_gmail_with_nango_v2, try_except, bind,
    get_client_global, set_client_global, set_service_global, ask, call, lift,
    raise, ret in Hrun.
  rewrite Hnone in Hrun.
  repeat (break_match_in Hrun; try discriminate Hrun).
  all: injection Hrun as _ <-; split; [exact Hnone | reflexivity].
Qed.

(** X3.  [get_gmail_client] builds the client once.  A client that is there is
    returned as it is, with no call to the outside.  A first call that
    succeeds stores the client and its service, so that the next call
    returns the same client.  A first call that fails stores nothing, so
    the next call tries again; without a connection id it fails before
    the broker is asked. *)
Theorem get_gmail_client_memoizes {W : Type} {E : External W} (s : state W) :
  (forall c, _gmail_client s = Some c -> get_gmail_client s = (Ok c, s))
  /\ (forall c s', _gmail_client s = None -> get_gmail_client s = (Ok c, s') ->
      _gmail_client s' = Some c /\ _gmail_service s' = Some (service c)
      /\ get_gmail_client s' = (Ok c, s'))
  /\ (forall e s', _gmail_client s = None -> get_gmail_client s = (Raise e, s') ->
      _gmail_client s' = None /\ _gmail_service s' = _gmail_service s)
  /\ (_gmail_client s = None ->
      opt_truthy (getenv "GMAIL_CONNECTION_ID" (world s)) = false ->
      get_gmail_client s
      = (Raise (ValueError "GMAIL_CONNECTION_ID environment variable is required"), s)).
Proof.
  split; [| split; [| split]].
  - exact (get_gmail_client_cached s).
  - intros c s' Hnone Hrun.
    destruct (get_gmail_client_stores s s' c Hnone Hrun) as (H1 & H2).
    split; [exact H1 |]. split; [exact H2 |].
    exact (get_gmail_client_cached s' c H1).
  - intros e s'. exact (get_gmail_client_failure s s' e).
  - intros Hnone Henv. unfold get_gmail_client, bind, get_client_global, ask.
    rewrite Hnone. cbn. rewrite Henv. reflexivity.
Qed.

Lemma get_gmail_client_memoizes_witness :
  let s' := snd (get_gmail_client (init world_one)) in
  get_gmail_client s' = (fst (get_gmail_client (init world_one)), s')
  /\ trace s' = [EvBroker "conn-1" "google";
                 EvBuild (mkCredentials (JStr "ya29.a0AfH6SMB") (JStr "1//0gkL")
                            "https://oauth2.googleapis.com/token" JNull JNull SCOPES)].
Proof.
  split; [| reflexivity].
  refine (proj2 (proj2 (proj1 (proj2 (get_gmail_client_memoizes (init world_one)))
           (mkClient (mkService (mkCredentials (JStr "ya29.a0AfH6SMB") (JStr "1//0gkL")
                        "https://oauth2.googleapis.com/token" JNull JNull SCOPES)))
           (snd (get_gmail_client (init world_one))) _ _))); reflexivity.
Defined.

(** ** What every tool keeps *)

Section Preservation.
Context {W : Type} {E : External W}.
Variable P : state W -> Prop.
Hypothesis P_logged :
  forall (s : state W) (w : W) (ev : event),
    mail_event ev -> P s ->
    P (mkState w (trace s ++ [ev]) (_gmail_client s) (_gmail_service s)).
Hypothesis P_client : preserves P get_gmail_client.

Lemma preserves_ret {A : Type} (a : A) : preserves P (ret a).
Proof. intros s Hs. exact Hs. Qed.

Lemma preserves_raise {A : Type} (e : exn) : preserves P (@raise W A e).
Proof. intros s Hs. exact Hs. Qed.

Lemma preserves_lift {A : Type} (r : result A) : preserves P (lift r).
Proof. intros s Hs. exact Hs. Qed.

Lemma preserves_ask {A : Type} (f : W -> A) : preserves P (ask f).
Proof. intros s Hs. exact Hs. Qed.

Lemma preserves_get_service_global : preserves P get_service_global.
Proof. intros s Hs. exact Hs. Qed.

Lemma preserves_call {A : Type} (ev : event) (f : W -> result A * W) :
  mail_event ev -> preserves P (call ev f).
Proof.
  intros Hev s Hs. unfold call. destruct (f (world s)) as [r w].
  exact (P_logged s w ev Hev Hs).
Qed.

Lemma preserves_bind {A B : Type} (m : M W A) (k : A -> M W B) :
  preserves P m -> (forall a, preserves P (k a)) -> preserves P (bind m k).
Proof.
  intros Hm Hk s Hs. unfold bind. specialize (Hm s Hs).
  destruct (m s) as [[a | e] s1]; [exact (Hk a s1 Hm) | exact Hm].
Qed.

Lemma preserves_try_except {A : Type} (m : M W A) (h : exn -> M W A) :
  preserves P m -> (forall e, preserves P (h e)) -> preserves P (try_except m h).
Proof.
  intros Hm Hh s Hs. unfold try_except. specialize (Hm s Hs).
  destruct (m s) as [[a | e] s1]; [exact Hm | exact (Hh e s1 Hm)].
Qed.

Lemma preserves_for_each {A S : Type} (body : A -> S -> M W S) (l : list A) :
  (forall x acc, preserves P (body x acc)) ->
  forall acc, preserves P (for_each l body acc).
Proof.
  intros Hbody. induction l as [| x l IH]; intros acc; cbn [for_each].
  - apply preserves_ret.
  - apply preserves_bind; [apply Hbody | exact IH].
Qed.

Ltac keep :=
  repeat first
    [ apply preserves_ret
    | apply preserves_raise
    | apply preserves_lift
    | apply preserves_ask
    | apply preserves_get_service_global
    | exact P_client
    | apply preserves_call; exact I
    | apply preserves_bind; [| intro]
    | apply preserves_try_except; [| intro]
    | apply preserves_for_each; intros
    | match goal with
      | |- preserves _ (match ?x with _ => _ end) => destruct x
      end ].

(** Whatever the mail service does, a tool leaves the process in a state
    of the same kind: a property of the state that logged calls to the mail
    service and [get_gmail_client] keep is kept by every tool. *)
Lemma run_tool_preserves (c : tool_call) : preserves P (run_tool c).
Proof.
  destruct c; cbn [run_tool];
    unfold gmail_list_messages, gmail_get_message, gmail_send_message,
      gmail_search_messages, gmail_mark_as_read, gmail_delete_messages,
      gmail_get_stats, gmail_send_message_with_attachment,
      detail_messages, batch, list_messages, get_message, send_message,
      send_message_with_attachment, mark_as_read, delete_message, search_messages;
    keep.
Qed.

End Preservation.

(** X4.  Once the client is there, no tool replaces or drops it, and no tool
    goes back to the broker, rebuilds the service or refreshes the token:
    whatever a tool sends after that goes to the mail service (or reads
    the attachment).  The access token obtained when the client was built
    is the one used from then on. *)
Theorem tools_keep_the_client {W : Type} {E : External W}
  (call : tool_call) (c : GmailClient) (s : state W) :
  _gmail_client s = Some c ->
  _gmail_client (snd (run_tool call s)) = Some c
  /\ _gmail_service (snd (run_tool call s)) = _gmail_service s
  /\ exists evs, trace (snd (run_tool call s)) = trace s ++ evs
                 /\ Forall mail_event evs.
Proof.
  intros Hc.
  apply (run_tool_preserves (serving c (_gmail_service s) (trace s))).
  - intros s0 w ev Hev (H1 & H2 & evs & Htrace & Hevs).
    split; [exact H1 |]. split; [exact H2 |].
    exists (evs ++ [ev]). cbn [trace]. rewrite Htrace, app_assoc.
    split; [reflexivity |]. apply Forall_app. split; [exact Hevs |].
    constructor; [exact Hev | constructor].
  - intros s0 (H1 & H2 & Hevs).
    rewrite (get_gmail_client_cached s0 c H1). cbn [snd].
    split; [exact H1 |]. split; [exact H2 | exact Hevs].
  - split; [exact Hc |]. split; [reflexivity |].
    exists []. rewrite app_nil_r. split; [reflexivity | constructor].
Qed.

Lemma tools_keep_the_client_witness :
  let s := snd (get_gmail_client (init world_one)) in
  let s' := snd (run_tool (DeleteMessages ["m1"; "m2"]) s) in
  _gmail_client s' = _gmail_client s
  /\ _gmail_service s' = _gmail_service s
  /\ exists evs, trace s' = trace s ++ evs /\ Forall mail_event evs.
Proof.
  intros s s'.
  exact (tools_keep_the_client (DeleteMessages ["m1"; "m2"])
           (mkClient (mkService (mkCredentials (JStr "ya29.a0AfH6SMB") (JStr "1//0gkL")
                        "https://oauth2.googleapis.com/token" JNull JNull SCOPES)))
           s eq_refl).
Defined.

Lemma get_gmail_client_consistent {W : Type} {E : External W} :
  preserves (@consistent W) get_gmail_client.
Proof.
  intros s Hs. unfold consistent in *.
  destruct (_gmail_client s) as [c |] eqn:Hc.
  - rewrite (get_gmail_client_cached s c Hc). cbn [snd].
    rewrite Hc. exact Hs.
  - destruct (get_gmail_client s) as [[c | e] s'] eqn:Hrun; cbn [snd].
    + destruct (get_gmail_client_stores s s' c Hc Hrun) as (-> & ->).
      reflexivity.
    + destruct (get_gmail_client_failure s s' e Hc Hrun) as (-> & ->). exact Hs.
Qed.

(** X5.  From the start of the process on, whatever tools are called and
    whatever they answer, the two globals are set together: either both
    are unset or [_gmail_client] wraps [_gmail_service].  So when
    [get_gmail_client] has returned a client, [_gmail_service], which
    [gmail_get_stats] uses directly, is that client's service. *)
Theorem globals_stay_consistent {W : Type} {E : External W}
  (w : W) (calls : list tool_call) :
  consistent (run_tools calls (init w))
  /\ (forall c s1,
        get_gmail_client (run_tools calls (init w)) = (Ok c, s1) ->
        _gmail_service s1 = Some (service c)).
Proof.
  assert (Hall : forall s : state W, consistent s -> consistent (run_tools calls s)).
  { induction calls as [| call rest IH]; intros s Hs; cbn [run_tools]; [exact Hs |].
    apply IH. apply (run_tool_preserves (@consistent W)); [| | exact Hs].
    - intros s0 w0 ev _ H0. exact H0.
    - exact get_gmail_client_consistent. }
  assert (Hstart : consistent (run_tools calls (init w))).
  { apply Hall. exact I. }
  split; [exact Hstart |].
  intros c s1 Hrun. unfold consistent in Hstart.
  destruct (_gmail_client (run_tools calls (init w))) as [c0 |] eqn:Hc0.
  - rewrite (get_gmail_client_cached _ c0 Hc0) in Hrun.
    injection Hrun as <- <-.
    destruct (_gmail_service (run_tools calls (init w))); [| contradiction].
    rewrite Hstart. reflexivity.
  - exact (proj2 (get_gmail_client_stores _ s1 c Hc0 Hrun)).
Qed.

Lemma globals_stay_consistent_witness :
  consistent (run_tools [GetStats true; ListMessages "" 0; DeleteMessages ["m1"]]
                (init world_one))
  /\ _gmail_service
       (run_tools [GetStats true; ListMessages "" 0; DeleteMessages ["m1"]]
          (init world_one))
     = Some (mkService (mkCredentials (JStr "ya29.a0AfH6SMB") (JStr "1//0gkL")
                          "https://oauth2.googleapis.com/token" JNull JNull SCOPES)).
Proof.
  pose proof (globals_stay_consistent world_one
                [GetStats true; ListMessages "" 0; DeleteMessages ["m1"]])
    as (Hcons & Hsv).
  split; [exact Hcons |].
  exact (Hsv _ _ eq_refl).
Defined.

(** ** Authentication *)

(** X6.  The four ways [authenticate_gmail_with_nango_v2] ends.  When the
    broker, the token search or the building of the service raises, the
    broker is asked a second time (for the debugging print), the answer or
    failure of that second request is dropped, and the first exception is
    the one raised.  Only success takes a single broker request. *)
Theorem authenticate_v2_outcomes {W : Type} {E : External W}
  (connection_id provider_config_key : string) (s : state W) :
  let ask_broker := get_connection_credentials connection_id provider_config_key in
  let broker := EvBroker connection_id provider_config_key in
  (forall e w1,
     ask_broker (world s) = (Raise e, w1) ->
     authenticate_gmail_with_nango_v2 connection_id provider_config_key s
     = (Raise e, logged s (snd (ask_broker w1)) [broker; broker]))
  /\ (forall r w1 e,
      ask_broker (world s) = (Ok r, w1) ->
      credentials_v2 repr r = Raise e ->
      authenticate_gmail_with_nango_v2 connection_id provider_config_key s
      = (Raise e, logged s (snd (ask_broker w1)) [broker; broker]))
  /\ (forall r w1 creds e w2,
      ask_broker (world s) = (Ok r, w1) ->
      credentials_v2 repr r = Ok creds ->
      build creds w1 = (Raise e, w2) ->
      authenticate_gmail_with_nango_v2 connection_id provider_config_key s
      = (Raise e, logged s (snd (ask_broker w2)) [broker; EvBuild creds; broker]))
  /\ (forall r w1 creds w2,
      ask_broker (world s) = (Ok r, w1) ->
      credentials_v2 repr r = Ok creds ->
      build creds w1 = (Ok tt, w2) ->
      authenticate_gmail_with_nango_v2 connection_id provider_config_key s
      = (Ok (mkService creds), logged s w2 [broker; EvBuild creds])).
Proof.
  cbv zeta. unfold authenticate_gmail_with_nango_v2, try_except, bind, call, lift,
    raise, ret, logged.
  split; [| split; [| split]].
  - intros e w1 H. rewrite H. cbn [world trace _gmail_client _gmail_service].
    destruct (get_connection_credentials connection_id provider_config_key w1)
      as [[r | e'] w2]; cbn [snd]; rewrite <- app_assoc; reflexivity.
  - intros r w1 e H Hc. rewrite H, Hc.
    cbn [world trace _gmail_client _gmail_service].
    destruct (get_connection_credentials connection_id provider_config_key w1)
      as [[r' | e'] w2]; cbn [snd]; rewrite <- app_assoc; reflexivity.
  - intros r w1 creds e w2 H Hc Hb. rewrite H, Hc.
    cbn [world trace _gmail_client _gmail_service]. rewrite Hb.
    cbn [world trace _gmail_client _gmail_service].
    destruct (get_connection_credentials connection_id provider_config_key w2)
      as [[r' | e'] w3]; cbn [snd]; repeat rewrite <- app_assoc; reflexivity.
  - intros r w1 creds w2 H Hc Hb. rewrite H, Hc.
    cbn [world trace _gmail_client _gmail_service]. rewrite Hb.
    cbn [world trace _gmail_client _gmail_service].
    rewrite <- app_assoc. reflexivity.
Qed.

Lemma authenticate_v2_outcomes_witness :
  let w := mkSim sim_env0 (Ok mixed_response) true [] in
  authenticate_gmail_with_nango_v2 "conn-1" "google" (init w)
  = (Raise (ValueError
       "No access token found in Nango response. Available keys: ['credentials', 'token']"),
     logged (init w) w [EvBroker "conn-1" "google"; EvBroker "conn-1" "google"]).
Proof.
  intros w.
  exact (proj1 (proj2 (authenticate_v2_outcomes "conn-1" "google" (init w)))
           mixed_response w
           (ValueError
              "No access token found in Nango response. Available keys: ['credentials', 'token']")
           eq_refl eq_refl).
Defined.


(** X8.  [authenticate_gmail_with_nango] leaves credentials alone that are
    valid or have no refresh token: the service is built on the token the
    broker gave, and nothing is asked of the token endpoint.  A response
    without an access token ends the authentication before anything is
    built. *)
Theorem authenticate_gmail_with_nango_no_refresh {W : Type} {E : External W}
  (connection_id provider_config_key : string) (s : state W)
  (nango_response : dict) (w : W) :
  get_connection_credentials connection_id provider_config_key (world s)
  = (Ok nango_response, w) ->
  (forall creds,
     create_credentials_from_nango nango_response = Ok creds ->
     creds_valid creds w = true \/ truthy (refresh_token creds) = false ->
     authenticate_gmail_with_nango connection_id provider_config_key s
     = (match fst (build creds w) with
        | Ok _ => Ok (mkService creds)
        | Raise e => Raise e
        end,
        logged s (snd (build creds w))
          [EvBroker connection_id provider_config_key; EvBuild creds]))
  /\ (forall e,
      create_credentials_from_nango nango_response = Raise e ->
      authenticate_gmail_with_nango connection_id provider_config_key s
      = (Raise e, logged s w [EvBroker connection_id provider_config_key])).
Proof.
  intros Hbroker. split.
  - intros creds Hcreds Hskip.
    unfold authenticate_gmail_with_nango, bind, call, lift, ask, ret, logged.
    rewrite Hbroker, Hcreds. cbn [world].
    assert (Hcond : negb (creds_valid creds w) && truthy (refresh_token creds) = false).
    { destruct Hskip as [-> | ->]; [reflexivity | apply andb_false_r]. }
    rewrite Hcond. cbn [world trace _gmail_client _gmail_service].
    destruct (build creds w) as [[u | e] w']; cbn [fst snd];
      rewrite <- app_assoc; reflexivity.
  - intros e Hcreds.
    unfold authenticate_gmail_with_nango, bind, call, lift, ask, ret, logged.
    rewrite Hbroker, Hcreds. reflexivity.
Qed.

Lemma authenticate_gmail_with_nango_no_refresh_witness :
  authenticate_gmail_with_nango "conn-1" "google" (init world_one)
  = (Ok (mkService (mkCredentials (JStr "ya29.a0AfH6SMB") (JStr "1//0gkL")
                      "https://oauth2.googleapis.com/token" JNull JNull SCOPES)),
     logged (init world_one) world_one
       [EvBroker "conn-1" "google";
        EvBuild (mkCredentials (JStr "ya29.a0AfH6SMB") (JStr "1//0gkL")
                   "https://oauth2.googleapis.com/token" JNull JNull SCOPES)]).
Proof.
  exact (proj1 (authenticate_gmail_with_nango_no_refresh "conn-1" "google"
                  (init world_one) flat_response world_one eq_refl)
           (mkCredentials (JStr "ya29.a0AfH6SMB") (JStr "1//0gkL")
              "https://oauth2.googleapis.com/token" JNull JNull SCOPES)
           eq_refl (or_introl eq_refl)).
Defined.

(** X9.  The two credential builders on the shapes of the broker's answer.
    Where the token sits under ["credentials"], or at top level with no
    ["credentials"] key, both read the same token and refresh token, but
    only [create_credentials_from_nango] takes the client id and secret
    along; [authenticate_gmail_with_nango_v2] always leaves them unset.
    A token under ["token"] is found by the second builder only.  When
    the answer has both a top-level token and a ["credentials"] object,
    the first builder reads the object and the second the top level. *)
Theorem credential_builders_compared py_repr (r : dict) (t : string) :
  t <> "" ->
  (forall d,
     dict_get "access_token" r = None ->
     dict_get "credentials" r = Some (JObj d) ->
     dict_get "access_token" d = Some (JStr t) ->
     credentials_v2 py_repr r
     = Ok (mkCredentials (JStr t) (py_get d "refresh_token")
             "https://oauth2.googleapis.com/token" JNull JNull SCOPES)
     /\ create_credentials_from_nango r
        = Ok (mkCredentials (JStr t) (py_get d "refresh_token")
                "https://oauth2.googleapis.com/token"
                (py_get d "client_id") (py_get d "client_secret") SCOPES))
  /\ (dict_get "access_token" r = Some (JStr t) ->
      dict_get "credentials" r = None ->
      credentials_v2 py_repr r
      = Ok (mkCredentials (JStr t) (py_get r "refresh_token")
              "https://oauth2.googleapis.com/token" JNull JNull SCOPES)
      /\ create_credentials_from_nango r
         = Ok (mkCredentials (JStr t) (py_get r "refresh_token")
                 "https://oauth2.googleapis.com/token"
                 (py_get r "client_id") (py_get r "client_secret") SCOPES))
  /\ (dict_get "access_token" r = None ->
      dict_get "credentials" r = None ->
      dict_get "token" r = Some (JStr t) ->
      (exists creds, credentials_v2 py_repr r = Ok creds /\ token creds = JStr t)
      /\ create_credentials_from_nango r
         = Raise (ValueError "No access_token found in Nango response"))
  /\ (forall d t',
      t' <> "" ->
      dict_get "access_token" r = Some (JStr t) ->
      dict_get "credentials" r = Some (JObj d) ->
      dict_get "access_token" d = Some (JStr t') ->
      (exists creds, credentials_v2 py_repr r = Ok creds /\ token creds = JStr t)
      /\ (exists creds, create_credentials_from_nango r = Ok creds
                        /\ token creds = JStr t')).
Proof.
  intros Ht.
  assert (Hflat : dict_get "access_token" r = Some (JStr t) ->
                  credentials_v2 py_repr r
                  = Ok (mkCredentials (JStr t) (py_get r "refresh_token")
                          "https://oauth2.googleapis.com/token" JNull JNull SCOPES)).
  { intros H. apply credentials_v2_located; [exact Ht |].
    unfold locate_tokens. rewrite H. reflexivity. }
  split; [| split; [| split]].
  - intros d H1 H2 H3. split.
    { apply credentials_v2_located; [exact Ht |].
      unfold locate_tokens. rewrite H1, H2. unfold py_get at 1. rewrite H3.
      reflexivity. }
    unfold create_credentials_from_nango. rewrite H2.
    unfold py_get at 1. rewrite H3. rewrite (truthy_JStr t Ht). cbn [negb].
    unfold py_get at 1. rewrite H3. reflexivity.
  - intros H1 H2. split; [exact (Hflat H1) |].
    unfold create_credentials_from_nango. rewrite H2.
    unfold py_get at 1. rewrite H1. rewrite (truthy_JStr t Ht). cbn [negb].
    unfold py_get at 1. rewrite H1. reflexivity.
  - intros H1 H2 H3. split.
    + eexists. split; [apply credentials_v2_located; [exact Ht |] | reflexivity].
      unfold locate_tokens. rewrite H1, H2, H3. reflexivity.
    + unfold create_credentials_from_nango. rewrite H2.
      unfold py_get at 1. rewrite H1. reflexivity.
  - intros d t' Ht' H1 H2 H3. split.
    + eexists. split; [exact (Hflat H1) | reflexivity].
    + unfold create_credentials_from_nango. rewrite H2.
      unfold py_get at 1. rewrite H3. rewrite (truthy_JStr t' Ht'). cbn [negb].
      eexists. split; [reflexivity |]. cbn [token]. unfold py_get. rewrite H3.
      reflexivity.
Qed.

Lemma credential_builders_compared_witness :
  (exists creds, credentials_v2 repr [("token", JStr "ya29.tok")] = Ok creds
                 /\ token creds = JStr "ya29.tok")
  /\ create_credentials_from_nango [("token", JStr "ya29.tok")]
     = Raise (ValueError "No access_token found in Nango response").
Proof.
  exact (proj1 (proj2 (proj2 (credential_builders_compared repr
                                [("token", JStr "ya29.tok")] "ya29.tok"
                                ltac:(discriminate))))
           eq_refl eq_refl eq_refl).
Defined.

(** ** Headers *)

Lemma str_get_dict_set (k k' v default : string) (d : list (string * string)) :
  str_get k default (dict_set k' v d)
  = if String.eqb k k' then v else str_get k default d.
Proof.
  induction d as [| [k0 v0] d IH]; cbn [dict_set str_get].
  - destruct (String.eqb k k'); reflexivity.
  - destruct (String.eqb_spec k' k0) as [-> | Hne]; cbn [str_get].
    + destruct (String.eqb k k0); reflexivity.
    + destruct (String.eqb_spec k k0) as [-> | Hne'].
      * destruct (String.eqb_spec k0 k'); [congruence | reflexivity].
      * exact IH.
Qed.

Lemma find_snoc {A : Type} (f : A -> bool) (l : list A) (x : A) :
  find f (l ++ [x])
  = match find f l with
    | Some y => Some y
    | None => if f x then Some x else None
    end.
Proof.
  induction l as [| y l IH]; cbn [app find]; [reflexivity |].
  destruct (f y); [reflexivity | exact IH].
Qed.

Lemma headers_fold_lookup (k default : string) (hs : list Header) :
  forall acc : list (string * string),
    str_get k default
      (fold_left (fun hs0 header => dict_set (name header) (value header) hs0) hs acc)
    = match last_header k hs with
      | Some h => value h
      | None => str_get k default acc
      end.
Proof.
  unfold last_header. induction hs as [| h hs IH]; intros acc; [reflexivity |].
  cbn [fold_left rev]. rewrite IH, find_snoc.
  destruct (find (fun h0 => String.eqb k (name h0)) (rev hs)); [reflexivity |].
  rewrite str_get_dict_set. destruct (String.eqb k (name h)); reflexivity.
Qed.

(** X10.  Looking a name up in the dict [get_message_headers] builds gives the
    value of the last header of exactly that name, a later header
    overwriting an earlier one; names are compared as they are written, so
    a header [from] does not answer a lookup of [From].  When no header has
    the name, or the message has no payload or no headers, the lookup
    gives the default. *)
Theorem header_lookup_is_last (m : Message) (k default : string) :
  str_get k default (get_message_headers (Some m))
  = match last_header k (header_list m) with
    | Some h => value h
    | None => default
    end.
Proof.
  unfold get_message_headers, header_list.
  destruct (payload m) as [p |]; [| reflexivity].
  rewrite headers_fold_lookup. reflexivity.
Qed.

(** ** More on body extraction *)

Lemma candidates_unfold (p : MessagePart) :
  candidates p
  = match parts p with
    | Some ps =>
        flat_map (fun c => match plain_data c with
                           | Some d => [d]
                           | None => candidates c
                           end) ps
    | None => []
    end.
Proof. destruct p; reflexivity. Qed.

Lemma subparts_unfold (p : MessagePart) :
  subparts p
  = p :: match parts p with
         | Some ps => flat_map subparts ps
         | None => []
         end.
Proof. destruct p; reflexivity. Qed.

Lemma candidates_in_tree (p : MessagePart) :
  forall d, In d (candidates p) ->
            exists q, In q (subparts p) /\ plain_data q = Some d.
Proof.
  induction p as [m h b | m h b ps IH] using MessagePart_tree_ind; intros d Hd.
  - destruct Hd.
  - rewrite candidates_unfold in Hd. cbn [parts] in Hd.
    apply in_flat_map in Hd. destruct Hd as (c & Hc & Hd).
    rewrite Forall_forall in IH.
    assert (Hq : exists q, In q (subparts c) /\ plain_data q = Some d).
    { destruct (plain_data c) as [d0 |] eqn:Hpd.
      - destruct Hd as [<- | []]. exists c. split; [| exact Hpd].
        rewrite subparts_unfold. left. reflexivity.
      - exact (IH c Hc d Hd). }
    destruct Hq as (q & Hq & Hpd). exists q. split; [| exact Hpd].
    rewrite subparts_unfold. right. cbn [parts].
    apply in_flat_map. exists c. split; assumption.
Qed.

Lemma body_candidates_in_tree (p : MessagePart) (d : string) :
  In d (body_candidates p) ->
  exists q, In q (subparts p) /\ plain_data q = Some d.
Proof.
  unfold body_candidates. destruct (parts p) eqn:Hp.
  - apply candidates_in_tree.
  - destruct (plain_data p) as [d0 |] eqn:Hpd; [| intros []].
    intros [<- | []]. exists p. split; [| exact Hpd].
    rewrite subparts_unfold. left. reflexivity.
Qed.

Lemma plain_data_tagged (q : MessagePart) (d : string) :
  plain_data q = Some d ->
  mimeType q = "text/plain" /\ exists b, body q = Some b /\ data b = Some d.
Proof.
  unfold plain_data. destruct (String.eqb_spec (mimeType q) "text/plain");
    [| discriminate].
  destruct (body q) as [b |]; [| discriminate].
  intros H. split; [assumption |]. exists b. split; [reflexivity | exact H].
Qed.

Lemma scan_parts_sound decode (ps : list MessagePart) :
  Forall (fun c =>
            extract_text_from_payload decode c = Ok "" \/
            exists d, In d (body_candidates c)
                      /\ extract_text_from_payload decode c = decode d) ps ->
  scan_parts decode (extract_text_from_payload decode) ps "" = Ok "" \/
  exists d,
    In d (flat_map (fun c => match plain_data c with
                             | Some d => [d]
                             | None => candidates c
                             end) ps)
    /\ scan_parts decode (extract_text_from_payload decode) ps "" = decode d.
Proof.
  induction 1 as [| c rest Hc _ IH]; [left; reflexivity |].
  cbn [scan_parts flat_map].
  destruct (plain_data c) as [d |] eqn:Hpd.
  - right. exists d. split; [left; reflexivity | reflexivity].
  - assert (Hnext :
      scan_parts decode (extract_text_from_payload decode) rest "" = Ok "" \/
      exists d, In d (candidates c ++ flat_map
                        (fun c0 => match plain_data c0 with
                                   | Some d0 => [d0]
                                   | None => candidates c0
                                   end) rest)
                /\ scan_parts decode (extract_text_from_payload decode) rest ""
                   = decode d).
    { destruct IH as [IH | (d & Hd & IH)]; [left; exact IH |].
      right. exists d. split; [apply in_or_app; right; exact Hd | exact IH]. }
    destruct (parts c) as [cs |] eqn:Hparts; [| exact Hnext].
    destruct Hc as [Hc | (d & Hd & Hc)].
    + rewrite Hc. exact Hnext.
    + unfold body_candidates in Hd. rewrite Hparts in Hd.
      rewrite Hc. destruct (decode d) as [t | e] eqn:Hdec.
      * destruct (str_truthy t) eqn:Ht.
        -- right. exists d. split; [apply in_or_app; left; exact Hd |].
           symmetry. exact Hdec.
        -- apply str_truthy_empty in Ht. subst t. exact Hnext.
      * right. exists d. split; [apply in_or_app; left; exact Hd |].
        symmetry. exact Hdec.
Qed.

Lemma extract_sound_candidates decode (p : MessagePart) :
  extract_text_from_payload decode p = Ok "" \/
  exists d, In d (body_candidates p)
            /\ extract_text_from_payload decode p = decode d.
Proof.
  induction p as [m h b | m h b ps IH] using MessagePart_tree_ind.
  - rewrite extract_unfold. unfold body_candidates. cbn [parts].
    destruct (plain_data (mkPart m h b None)) as [d |]; [| left; reflexivity].
    right. exists d. split; [left; reflexivity | reflexivity].
  - rewrite extract_unfold. unfold body_candidates. cbn [parts].
    rewrite candidates_unfold. cbn [parts].
    apply scan_parts_sound. exact IH.
Qed.

(** X11.  The body is never anything but plain text: what
    [get_message_body] returns is either the empty string or what the
    decoder makes of the inline data of some part of the payload tree
    that is tagged text/plain; the data of parts with another tag is never
    decoded. *)
Theorem body_comes_from_a_text_plain_part (decode : string -> result string)
  (m : Message) :
  get_message_body decode (Some m) = Ok "" \/
  exists (p q : MessagePart) (b : MessagePartBody) (d : string),
    payload m = Some p /\ In q (subparts p)
    /\ mimeType q = "text/plain" /\ body q = Some b /\ data b = Some d
    /\ get_message_body decode (Some m) = decode d.
Proof.
  unfold get_message_body. destruct (payload m) as [p |]; [| left; reflexivity].
  destruct (extract_sound_candidates decode p) as [H | (d & Hd & H)];
    [left; exact H |].
  right. destruct (body_candidates_in_tree p d Hd) as (q & Hq & Hpd).
  destruct (plain_data_tagged q d Hpd) as (Htag & b & Hb & Hdata).
  exists p, q, b, d. repeat split; assumption.
Qed.

Lemma scan_parts_first_candidate decode (ps : list MessagePart) :
  Forall (fun c =>
            (forall d, In d (body_candidates c) -> decode d <> Ok "") ->
            extract_text_from_payload decode c
            = match body_candidates c with
              | [] => Ok ""
              | d :: _ => decode d
              end) ps ->
  (forall d, In d (flat_map (fun c => match plain_data c with
                                      | Some d => [d]
                                      | None => candidates c
                                      end) ps) -> decode d <> Ok "") ->
  scan_parts decode (extract_text_from_payload decode) ps ""
  = match flat_map (fun c => match plain_data c with
                             | Some d => [d]
                             | None => candidates c
                             end) ps with
    | [] => Ok ""
    | d :: _ => decode d
    end.
Proof.
  induction 1 as [| c rest Hc _ IH]; intros Hne; [reflexivity |].
  cbn [scan_parts flat_map] in *.
  destruct (plain_data c) as [d |] eqn:Hpd; [reflexivity |].
  assert (Hrest : forall d,
            In d (flat_map (fun c0 => match plain_data c0 with
                                      | Some d0 => [d0]
                                      | None => candidates c0
                                      end) rest) -> decode d <> Ok "").
  { intros d Hd. apply Hne, in_or_app. right. exact Hd. }
  destruct (parts c) as [cs |] eqn:Hparts.
  - unfold body_candidates in Hc. rewrite Hparts in Hc.
    rewrite Hc; [| intros d Hd; apply Hne, in_or_app; left; exact Hd].
    destruct (candidates c) as [| d ds] eqn:Hcs.
    + cbn [app]. exact (IH Hrest).
    + cbn [app]. assert (Hd : decode d <> Ok "").
      { apply Hne. left. reflexivity. }
      destruct (decode d) as [t | e]; [| reflexivity].
      destruct (str_truthy t) eqn:Ht; [reflexivity |].
      apply str_truthy_empty in Ht. subst t. contradiction.
  - rewrite candidates_unfold, Hparts. cbn [app]. exact (IH Hrest).
Qed.

Lemma extract_first_candidate decode (p : MessagePart) :
  (forall d, In d (body_candidates p) -> decode d <> Ok "") ->
  extract_text_from_payload decode p
  = match body_candidates p with
    | [] => Ok ""
    | d :: _ => decode d
    end.
Proof.
  induction p as [m h b | m h b ps IH] using MessagePart_tree_ind; intros Hne.
  - rewrite extract_unfold. unfold body_candidates. cbn [parts].
    destruct (plain_data (mkPart m h b None)); reflexivity.
  - rewrite extract_unfold. unfold body_candidates in *. cbn [parts] in *.
    rewrite candidates_unfold in *. cbn [parts] in *.
    apply scan_parts_first_candidate; assumption.
Qed.

(** X12.  Provided no text/plain data of the payload decodes to the empty
    string, the body is what the decoder makes of the first text/plain
    part with inline data in document order, at whatever depth it lies,
    and if the decoder raises on that part, the extraction raises, even
    when later parts would decode; without such a part the body is
    empty. *)
Theorem body_is_first_in_document_order (decode : string -> result string)
  (m : Message) (p : MessagePart) :
  payload m = Some p ->
  (forall d, In d (body_candidates p) -> decode d <> Ok "") ->
  get_message_body decode (Some m)
  = match body_candidates p with
    | [] => Ok ""
    | d :: _ => decode d
    end.
Proof.
  intros Hp Hne. unfold get_message_body. rewrite Hp.
  apply extract_first_candidate. exact Hne.
Qed.

Lemma body_is_first_in_document_order_witness :
  let p := multipart "multipart/mixed"
             [ leaf "application/pdf" (Some "JVBERi0=");
               multipart "multipart/related"
                 [ multipart "multipart/alternative"
                     [ leaf "text/html" (Some "PGI-SGk8L2I-");
                       leaf "text/plain" (Some "Zmlyc3Q=") ] ];
               leaf "text/plain" (Some "c2Vjb25k") ] in
  body_candidates p = ["Zmlyc3Q="; "c2Vjb25k"]
  /\ get_message_body sim_b64decode (Some (mail "m9" ["INBOX"] p)) = Ok "first".
Proof.
  intros p. split; [reflexivity |].
  refine (eq_trans (body_is_first_in_document_order sim_b64decode
                      (mail "m9" ["INBOX"] p) p eq_refl _) eq_refl).
  intros d [<- | [<- | []]]; discriminate.
Defined.

(** ** The tools, call by call *)



(** X14.  [gmail_get_message] on a message the mail service returns: when the
    body extraction raises, as on text/plain data that does not decode,
    the tool answers with a failure carrying the exception's text, and
    nothing of the message is returned; otherwise it answers with the
    message's fields, the absent ones replaced by their defaults. *)
Theorem gmail_get_message_outcomes {W : Type} {E : External W}
  (message_id : string) (gmail : GmailClient) (s s1 : state W) (m : Message) (w : W) :
  message_id <> "" ->
  get_gmail_client s = (Ok gmail, s1) ->
  api_get (service gmail) message_id (world s1) = (Ok m, w) ->
  (forall e,
     get_message_body b64decode_utf8 (Some m) = Raise e ->
     gmail_get_message message_id s
     = (Ok (failure ("Failed to get message: " ++ exn_str e)),
        logged s1 w [EvGet message_id]))
  /\ (forall text,
      get_message_body b64decode_utf8 (Some m) = Ok text ->
      gmail_get_message message_id s
      = (Ok [ ("success", JBool true);
              ("message", JObj
                 [ ("id", JStr message_id);
                   ("from", JStr (str_get "From" "Unknown"
                                    (get_message_headers (Some m))));
                   ("to", JStr (str_get "To" "Unknown"
                                  (get_message_headers (Some m))));
                   ("subject", JStr (str_get "Subject" "No Subject"
                                       (get_message_headers (Some m))));
                   ("date", JStr (str_get "Date" "Unknown"
                                    (get_message_headers (Some m))));
                   ("body", JStr text);
                   ("snippet", JStr (or_default (snippet m) ""));
                   ("labels", JArr (map JStr (labels_of m)));
                   ("thread_id", JStr (or_default (threadId m) ""));
                   ("is_unread", JBool (list_in "UNREAD" (labels_of m))) ]) ],
         logged s1 w [EvGet message_id])).
Proof.
  intros Hid Hclient Hget.
  split.
  - intros e Hbody. unfold gmail_get_message, try_except.
    rewrite (validate_message_id_nonempty _ Hid). cbn [negb].
    unfold bind at 1. rewrite Hclient.
    unfold bind at 1. rewrite get_message_run, Hget. cbn [fst snd].
    unfold bind, lift. rewrite Hbody. reflexivity.
  - intros text Hbody. unfold gmail_get_message, try_except.
    rewrite (validate_message_id_nonempty _ Hid). cbn [negb].
    unfold bind at 1. rewrite Hclient.
    unfold bind at 1. rewrite get_message_run, Hget. cbn [fst snd].
    unfold bind, lift. rewrite Hbody. reflexivity.
Qed.

Lemma gmail_get_message_outcomes_witness :
  let broken := mail "m1" ["INBOX"] (leaf "text/plain" (Some "SGVsbG8")) in
  let w := mkSim sim_env0 (Ok flat_response) true [broken] in
  gmail_get_message "m1" (init w)
  = (Ok (failure "Failed to get message: Incorrect padding"),
     logged (snd (get_gmail_client (init w))) w [EvGet "m1"]).
Proof.
  intros broken w.
  exact (proj1 (gmail_get_message_outcomes "m1"
                  (mkClient (mkService (mkCredentials (JStr "ya29.a0AfH6SMB")
                     (JStr "1//0gkL") "https://oauth2.googleapis.com/token"
                     JNull JNull SCOPES)))
                  (init w) (snd (get_gmail_client (init w))) broken w
                  ltac:(discriminate) eq_refl eq_refl)
           (ValueError "Incorrect padding") eq_refl).
Defined.

(** X15.  [gmail_send_message] with well-formed parameters: the message is
    composed from [to], [subject] and [body] alone, without a sender, so
    [cc] and [bcc] never reach it.  When composing raises, nothing is
    sent; when composing or sending raises, the answer is the fixed
    ["Failed to send email"] and the exception's text is lost.  Otherwise
    exactly one message is sent and its id returned. *)
Theorem gmail_send_message_outcomes {W : Type} {E : External W}
  (to subject body cc bcc : string) (gmail : GmailClient) (s s1 : state W) :
  validate_email_address to = true ->
  is_blank subject = false ->
  is_blank body = false ->
  get_gmail_client s = (Ok gmail, s1) ->
  (forall e,
     mime_text_raw to subject body None = Raise e ->
     gmail_send_message to subject body cc bcc s
     = (Ok (failure "Failed to send email"), s1))
  /\ (forall raw e w,
      mime_text_raw to subject body None = Ok raw ->
      api_send (service gmail) raw (world s1) = (Raise e, w) ->
      gmail_send_message to subject body cc bcc s
      = (Ok (failure "Failed to send email"), logged s1 w [EvSend raw]))
  /\ (forall raw sent_id w,
      mime_text_raw to subject body None = Ok raw ->
      api_send (service gmail) raw (world s1) = (Ok sent_id, w) ->
      gmail_send_message to subject body cc bcc s
      = (Ok [ ("success", JBool true);
              ("message", JStr "Email sent successfully");
              ("message_id", JStr sent_id);
              ("to", JStr to);
              ("subject", JStr subject) ],
         logged s1 w [EvSend raw])).
Proof.
  intros Hto Hsub Hbody Hclient.
  assert (Hhead : gmail_send_message to subject body cc bcc s
                  = match send_message gmail to subject body None s1 with
                    | (Ok (Some sent_id), s2) =>
                        (Ok [ ("success", JBool true);
                              ("message", JStr "Email sent successfully");
                              ("message_id", JStr sent_id);
                              ("to", JStr to);
                              ("subject", JStr subject) ], s2)
                    | (Ok None, s2) => (Ok (failure "Failed to send email"), s2)
                    | (Raise e, s2) =>
                        (Ok (failure ("Failed to send message: " ++ exn_str e)), s2)
                    end).
  { unfold gmail_send_message, try_except. rewrite Hto, Hsub, Hbody. cbn [negb].
    unfold bind at 1. unfold bind at 1. rewrite Hclient. unfold bind.
    destruct (send_message gmail to subject body None s1) as [[[sent |] | e] s2];
      reflexivity. }
  rewrite Hhead. unfold send_message, try_except, bind, lift, call, ret, logged.
  split; [| split].
  - intros e Hraw. rewrite Hraw. reflexivity.
  - intros raw e w Hraw Hsend. rewrite Hraw, Hsend. reflexivity.
  - intros raw sent_id w Hraw Hsend. rewrite Hraw, Hsend. reflexivity.
Qed.

Lemma gmail_send_message_outcomes_witness :
  gmail_send_message "a@b.com" "Hello" "How are you?" "c@d.org" "" (init world_one)
  = (Ok [ ("success", JBool true);
          ("message", JStr "Email sent successfully");
          ("message_id", JStr "18c2f0a1b2c3d4e5");
          ("to", JStr "a@b.com");
          ("subject", JStr "Hello") ],
     logged (snd (get_gmail_client (init world_one))) world_one
       [EvSend "Q29udGVudC1UeXBlOiB0ZXh0L3BsYWluOyBjaGFyc2V0PSJ1cy1hc2NpaSIKTUlNRS1WZXJzaW9uOiAxLjAKQ29udGVudC1UcmFuc2Zlci1FbmNvZGluZzogN2JpdAp0bzogYUBiLmNvbQpzdWJqZWN0OiBIZWxsbwoKSG93IGFyZSB5b3U_"]).
Proof.
  exact (proj2 (proj2 (gmail_send_message_outcomes "a@b.com" "Hello" "How are you?"
                  "c@d.org" ""
                  (mkClient (mkService (mkCredentials (JStr "ya29.a0AfH6SMB")
                     (JStr "1//0gkL") "https://oauth2.googleapis.com/token"
                     JNull JNull SCOPES)))
                  (init world_one) (snd (get_gmail_client (init world_one)))
                  eq_refl eq_refl eq_refl eq_refl))
           "Q29udGVudC1UeXBlOiB0ZXh0L3BsYWluOyBjaGFyc2V0PSJ1cy1hc2NpaSIKTUlNRS1WZXJzaW9uOiAxLjAKQ29udGVudC1UcmFuc2Zlci1FbmNvZGluZzogN2JpdAp0bzogYUBiLmNvbQpzdWJqZWN0OiBIZWxsbwoKSG93IGFyZSB5b3U_"
           "18c2f0a1b2c3d4e5" world_one eq_refl eq_refl).
Defined.

(** X16.  [gmail_send_message_with_attachment] with well-formed parameters and a
    file that is there: the message is put together from [to], [subject],
    [body] and the file, [cc] never reaching it.  When reading the file or
    composing raises, nothing is sent; when that or the sending raises,
    the answer is the fixed ["Failed to send email with attachment"].
    Otherwise one message is sent, and the answer names the file without
    its directories. *)
Theorem gmail_send_message_with_attachment_outcomes {W : Type} {E : External W}
  (to subject body file_path cc : string) (gmail : GmailClient) (s s1 : state W) :
  validate_email_address to = true ->
  is_blank subject = false ->
  is_blank body = false ->
  path_exists file_path (world s) = true ->
  get_gmail_client s = (Ok gmail, s1) ->
  path_exists file_path (world s1) = true ->
  (forall e w,
     mime_multipart_raw to subject body file_path (world s1) = (Raise e, w) ->
     gmail_send_message_with_attachment to subject body file_path cc s
     = (Ok (failure "Failed to send email with attachment"),
        logged s1 w [EvReadFile file_path]))
  /\ (forall raw w e w',
      mime_multipart_raw to subject body file_path (world s1) = (Ok raw, w) ->
      api_send (service gmail) raw w = (Raise e, w') ->
      gmail_send_message_with_attachment to subject body file_path cc s
      = (Ok (failure "Failed to send email with attachment"),
         logged s1 w' [EvReadFile file_path; EvSend raw]))
  /\ (forall raw w sent_id w',
      mime_multipart_raw to subject body file_path (world s1) = (Ok raw, w) ->
      api_send (service gmail) raw w = (Ok sent_id, w') ->
      gmail_send_message_with_attachment to subject body file_path cc s
      = (Ok [ ("success", JBool true);
              ("message", JStr "Email with attachment sent successfully");
              ("message_id", JStr sent_id);
              ("to", JStr to);
              ("subject", JStr subject);
              ("attachment", JStr (basename file_path)) ],
         logged s1 w' [EvReadFile file_path; EvSend raw])).
Proof.
  intros Hto Hsub Hbody Hfile Hclient Hfile1.
  assert (Hhead :
    gmail_send_message_with_attachment to subject body file_path cc s
    = match send_message_with_attachment gmail to subject body file_path s1 with
      | (Ok (Some sent_id), s2) =>
          (Ok [ ("success", JBool true);
                ("message", JStr "Email with attachment sent successfully");
                ("message_id", JStr sent_id);
                ("to", JStr to);
                ("subject", JStr subject);
                ("attachment", JStr (basename file_path)) ], s2)
      | (Ok None, s2) => (Ok (failure "Failed to send email with attachment"), s2)
      | (Raise e, s2) =>
          (Ok (failure ("Failed to send message with attachment: " ++ exn_str e)), s2)
      end).
  { unfold gmail_send_message_with_attachment, try_except.
    rewrite Hto, Hsub, Hbody. cbn [negb].
    unfold bind at 1. unfold bind at 1. unfold ask at 1. rewrite Hfile. cbn [negb].
    unfold bind at 1. rewrite Hclient. unfold bind.
    destruct (send_message_with_attachment gmail to subject body file_path s1)
      as [[[sent |] | e] s2]; reflexivity. }
  rewrite Hhead.
  unfold send_message_with_attachment, try_except, bind, ask, call, ret, logged.
  rewrite Hfile1. split; [| split].
  - intros e w Hraw. rewrite Hraw. reflexivity.
  - intros raw w e w' Hraw Hsend. rewrite Hraw.
    cbn [world trace _gmail_client _gmail_service]. rewrite Hsend.
    rewrite <- app_assoc. reflexivity.
  - intros raw w sent_id w' Hraw Hsend. rewrite Hraw.
    cbn [world trace _gmail_client _gmail_service]. rewrite Hsend.
    rewrite <- app_assoc. reflexivity.
Qed.

Lemma gmail_send_message_with_attachment_outcomes_witness :
  @gmail_send_message_with_attachment Sim sim_with_file
    "a@b.com" "Report" "See attached." "/tmp/report.pdf" "" (init world_one)
  = (Ok (failure "Failed to send email with attachment"),
     logged (snd (@get_gmail_client Sim sim_with_file (init world_one))) world_one
       [EvReadFile "/tmp/report.pdf"]).
Proof.
  exact (proj1 (@gmail_send_message_with_attachment_outcomes Sim sim_with_file
                  "a@b.com" "Report" "See attached." "/tmp/report.pdf" ""
                  (mkClient (mkService (mkCredentials (JStr "ya29.a0AfH6SMB")
                     (JStr "1//0gkL") "https://oauth2.googleapis.com/token"
                     JNull JNull SCOPES)))
                  (init world_one)
                  (snd (@get_gmail_client Sim sim_with_file (init world_one)))
                  eq_refl eq_refl eq_refl eq_refl eq_refl eq_refl)
           (RemoteError "[Errno 13] Permission denied: '/tmp/report.pdf'")
           world_one eq_refl).
Defined.

(** X17.  [gmail_get_stats] never counts the unread messages.  The call
    [gmail.search_messages(is_unread=True, max_results=100)] names a
    parameter [search_messages] does not have, so it raises before the
    client does anything; the tool catches the exception and puts its text
    where the count should be.  The profile request is the only call to
    the mail service, with or without [include_unread]; when it raises,
    the answer is a failure carrying the exception's text.  (The wording
    of the [TypeError] is that of CPython 3.10 and later.) *)
Theorem gmail_get_stats_never_counts {W : Type} {E : External W}
  (include_unread : bool) (gmail : GmailClient) (sv : Service) (s s1 : state W) :
  get_gmail_client s = (Ok gmail, s1) ->
  _gmail_service s1 = Some sv ->
  (forall profile w,
     api_get_profile sv (world s1) = (Ok profile, w) ->
     exists resp : dict,
       gmail_get_stats include_unread s = (Ok resp, logged s1 w [EvProfile])
       /\ dict_get "success" resp = Some (JBool true)
       /\ dict_get "total_messages" resp
          = Some (JNum (match messagesTotal profile with
                        | Some n => n
                        | None => 0%Z
                        end))
       /\ dict_get "unread_count" resp
          = if include_unread
            then Some (JStr "Error counting unread: GmailClient.search_messages() got an unexpected keyword argument 'max_results'")
            else None)
  /\ (forall e w,
      api_get_profile sv (world s1) = (Raise e, w) ->
      gmail_get_stats include_unread s
      = (Ok (failure ("Failed to get stats: " ++ exn_str e)),
         logged s1 w [EvProfile])).
Proof.
  intros Hclient Hsv.
  unfold gmail_get_stats, try_except, bind, get_service_global, call, raise, ret.
  rewrite Hclient, Hsv. split.
  - intros profile w Hprofile. rewrite Hprofile.
    destruct include_unread; eexists; (split; [reflexivity |]);
      repeat split.
  - intros e w Hprofile. rewrite Hprofile. reflexivity.
Qed.

Lemma gmail_get_stats_never_counts_witness :
  exists resp : dict,
    gmail_get_stats true (init world_twelve)
    = (Ok resp, logged (snd (get_gmail_client (init world_twelve))) world_twelve
                  [EvProfile])
    /\ dict_get "success" resp = Some (JBool true)
    /\ dict_get "total_messages" resp = Some (JNum 12)
    /\ dict_get "unread_count" resp
       = Some (JStr "Error counting unread: GmailClient.search_messages() got an unexpected keyword argument 'max_results'").
Proof.
  exact (proj1 (gmail_get_stats_never_counts true
                  (mkClient (mkService (mkCredentials (JStr "ya29.a0AfH6SMB")
                     (JStr "1//0gkL") "https://oauth2.googleapis.com/token"
                     JNull JNull SCOPES)))
                  (mkService (mkCredentials (JStr "ya29.a0AfH6SMB") (JStr "1//0gkL")
                                "https://oauth2.googleapis.com/token" JNull JNull SCOPES))
                  (init world_twelve) (snd (get_gmail_client (init world_twelve)))
                  eq_refl eq_refl)
           (mkProfile (Some "me@example.com") (Some 12%Z) None None) world_twelve
           eq_refl).
Defined.

Lemma dict_get_cons (k k' : string) (v : json) (d : dict) :
  dict_get k ((k', v) :: d) = if String.eqb k k' then Some v else dict_get k d.
Proof. reflexivity. Qed.

(** X18.  [before_date] is echoed and nothing else: whatever the other
    parameters, a search with a [before_date] makes the same calls, leaves
    the same state and returns the same response as the search without it,
    except for the [search_criteria] entry of the response. *)
Theorem before_date_only_echoed {W : Type} {E : External W}
  (sender subject after_date before_date : option string)
  (has_attachment is_unread : bool) (max_results : Z) (s : state W) :
  snd (gmail_search_messages sender subject after_date before_date
         has_attachment is_unread max_results s)
  = snd (gmail_search_messages sender subject after_date None
           has_attachment is_unread max_results s)
  /\ exists resp resp' : dict,
       fst (gmail_search_messages sender subject after_date before_date
              has_attachment is_unread max_results s) = Ok resp
       /\ fst (gmail_search_messages sender subject after_date None
                 has_attachment is_unread max_results s) = Ok resp'
       /\ forall k, k <> "search_criteria" -> dict_get k resp = dict_get k resp'.
Proof.
  unfold gmail_search_messages, try_except, bind, ret.
  repeat break_match; cbn [fst snd];
    (split; [reflexivity |]); eexists; eexists;
    (split; [reflexivity |]); (split; [reflexivity |]); intros k Hk;
    try reflexivity.
  all: repeat rewrite dict_get_cons;
    destruct (String.eqb_spec k "search_criteria"); [contradiction | reflexivity].
Qed.

Lemma before_date_only_echoed_witness :
  snd (gmail_search_messages None None None (Some "2024/01/01") false true 5
         (init world_twelve))
  = snd (gmail_search_messages None None None None false true 5 (init world_twelve))
  /\ exists resp resp' : dict,
       fst (gmail_search_messages None None None (Some "2024/01/01") false true 5
              (init world_twelve)) = Ok resp
       /\ fst (gmail_search_messages None None None None false true 5
                 (init world_twelve)) = Ok resp'
       /\ dict_get "messages" resp = dict_get "messages" resp'
       /\ dict_get "search_criteria" resp
          = Some (JArr [JStr "before: 2024/01/01"; JStr "unread only"])
       /\ dict_get "search_criteria" resp' = Some (JArr [JStr "unread only"]).
Proof.
  destruct (before_date_only_echoed None None None (Some "2024/01/01") false true 5
              (init world_twelve)) as (Hstate & resp & resp' & H1 & H2 & Hk).
  split; [exact Hstate |]. exists resp, resp'.
  split; [exact H1 |]. split; [exact H2 |].
  split; [apply Hk; discriminate |].
  vm_compute in H1, H2. injection H1 as <-. injection H2 as <-.
  split; reflexivity.
Defined.

(** ** Batches *)

Lemma mark_as_read_run {W : Type} {E : External W}
  (gmail : GmailClient) (message_id : string) (s : state W) :
  mark_as_read gmail message_id s
  = (Ok match fst (api_modify (service gmail) message_id (world s)) with
        | Ok _ => true
        | Raise _ => false
        end,
     logged s (snd (api_modify (service gmail) message_id (world s)))
       [EvModify message_id]).
Proof.
  unfold mark_as_read, try_except, bind, call, ret, logged.
  destruct (api_modify (service gmail) message_id (world s)) as [[r | e] w]; reflexivity.
Qed.

Section BatchLoop.
Context {W : Type} {E : External W}.
Variable op : string -> M W bool.
Variable remote : string -> W -> result unit * W.
Variable ev : string -> event.
Hypothesis op_run :
  forall message_id s,
    op message_id s
    = (Ok match fst (remote message_id (world s)) with
          | Ok _ => true
          | Raise _ => false
          end,
       logged s (snd (remote message_id (world s))) [ev message_id]).


End BatchLoop.







(** ** Configuration *)

Lemma get_variable_run {W : Type} {E : External W} (key : string) (s : state W) :
  get_variable key s
  = match getenv (env_key key) (world s) with
    | Some v =>
        if String.eqb v "" then
          (Raise (ValueError ("Environment variable " ++ env_key key
                                ++ " not found. Please check your .env file.")), s)
        else (Ok v, s)
    | None =>
        (Raise (ValueError ("Environment variable " ++ env_key key
                              ++ " not found. Please check your .env file.")), s)
    end.
Proof.
  unfold get_variable, bind, ask, raise, ret, opt_truthy, str_truthy.
  destruct (getenv (env_key key) (world s)) as [v |]; [| reflexivity].
  destruct (String.eqb v ""); reflexivity.
Qed.

(** X21.  No request goes to the broker unless its address and its key are
    configured.  [get_connection_credentials] reads
    [NANGO_NANGO_BASE_URL] first and [NANGO_NANGO_SECRET_KEY] second; a
    variable that is unset or set to the empty string raises a
    [ValueError] naming it, and nothing has been sent.  With both set,
    exactly one request is made, to [<base>/connection/<id>], with the key
    as bearer token and the parameters [provider_config_key] and
    [refresh_token=true], and its outcome is the function's. *)
Theorem broker_request_needs_configuration {W : Type} {E : External W}
  (requests_get_json :
     string -> list (string * string) -> list (string * string) -> W -> result dict * W)
  (id providerConfigKey : string) (s : state W) :
  (opt_truthy (getenv "NANGO_NANGO_BASE_URL" (world s)) = false ->
   get_connection_credentials_src requests_get_json id providerConfigKey s
   = (Raise (ValueError
        "Environment variable NANGO_NANGO_BASE_URL not found. Please check your .env file."),
      s))
  /\ (opt_truthy (getenv "NANGO_NANGO_BASE_URL" (world s)) = true ->
      opt_truthy (getenv "NANGO_NANGO_SECRET_KEY" (world s)) = false ->
      get_connection_credentials_src requests_get_json id providerConfigKey s
      = (Raise (ValueError
           "Environment variable NANGO_NANGO_SECRET_KEY not found. Please check your .env file."),
         s))
  /\ (forall base_url secret_key,
      getenv "NANGO_NANGO_BASE_URL" (world s) = Some base_url -> base_url <> "" ->
      getenv "NANGO_NANGO_SECRET_KEY" (world s) = Some secret_key -> secret_key <> "" ->
      let answer :=
        requests_get_json (base_url ++ "/connection/" ++ id)%string
          [ ("Authorization", ("Bearer " ++ secret_key)%string) ]
          [ ("provider_config_key", providerConfigKey); ("refresh_token", "true") ]
          (world s) in
      get_connection_credentials_src requests_get_json id providerConfigKey s
      = (fst answer, logged s (snd answer) [EvBroker id providerConfigKey])).
Proof.
  assert (Hbase : env_key "f/secrets/nango/nango_base_url" = "NANGO_NANGO_BASE_URL")
    by reflexivity.
  assert (Hkey : env_key "f/secrets/nango/nango_secret_key" = "NANGO_NANGO_SECRET_KEY")
    by reflexivity.
  unfold get_connection_credentials_src, opt_truthy, str_truthy.
  split; [| split].
  - intros H. unfold bind at 1. rewrite get_variable_run, Hbase.
    destruct (getenv "NANGO_NANGO_BASE_URL" (world s)) as [v |]; [| reflexivity].
    destruct (String.eqb v ""); [reflexivity | discriminate].
  - intros H1 H2. unfold bind at 1. rewrite get_variable_run, Hbase.
    destruct (getenv "NANGO_NANGO_BASE_URL" (world s)) as [v |]; [| discriminate].
    destruct (String.eqb v ""); [discriminate |].
    unfold bind at 1. rewrite get_variable_run, Hkey.
    destruct (getenv "NANGO_NANGO_SECRET_KEY" (world s)) as [k |]; [| reflexivity].
    destruct (String.eqb k ""); [reflexivity | discriminate].
  - intros base_url secret_key H1 Hb H2 Hk.
    unfold bind at 1. rewrite get_variable_run, Hbase, H1.
    destruct (String.eqb_spec base_url ""); [contradiction |].
    unfold bind at 1. rewrite get_variable_run, Hkey, H2.
    destruct (String.eqb_spec secret_key ""); [contradiction |].
    unfold call, logged.
    destruct (requests_get_json _ _ _ (world s)) as [r w]. reflexivity.
Qed.

Lemma broker_request_needs_configuration_witness :
  get_connection_credentials_src (fun _ _ _ w => (Ok flat_response, w))
    "conn-1" "google" (init world_one)
  = (Raise (ValueError
       "Environment variable NANGO_NANGO_BASE_URL not found. Please check your .env file."),
     init world_one).
Proof.
  exact (proj1 (broker_request_needs_configuration
                  (fun _ _ _ w => (Ok flat_response, w)) "conn-1" "google"
                  (init world_one)) eq_refl).
Defined.

(** X22.  [test_env_variables] succeeds exactly when the four variables are set
    and not empty; and then the configuration cannot be what stops the
    server: both of [get_variable]'s lookups for the broker succeed, and
    the first thing [get_gmail_client] does, when there is no client yet,
    is to ask the broker, with the connection id and the provider key of
    the environment. *)
Theorem connection_test_guarantees_configuration {W : Type} {E : External W}
  (s : state W) :
  (test_env_variables (world s) = true <->
   Forall (fun var => opt_truthy (getenv var (world s)) = true) required_vars)
  /\ (test_env_variables (world s) = true ->
      (exists v, v <> ""
                 /\ get_variable "f/secrets/nango/nango_base_url" s = (Ok v, s))
      /\ (exists v, v <> ""
                    /\ get_variable "f/secrets/nango/nango_secret_key" s = (Ok v, s))
      /\ (_gmail_client s = None ->
          exists connection_id provider_config_key evs,
            getenv "GMAIL_CONNECTION_ID" (world s) = Some connection_id
            /\ getenv "NANGO_PROVIDER_CONFIG_KEY" (world s) = Some provider_config_key
            /\ trace (snd (get_gmail_client s))
               = trace s ++ EvBroker connection_id provider_config_key :: evs)).
Proof.
  assert (Hiff : test_env_variables (world s) = true <->
                 Forall (fun var => opt_truthy (getenv var (world s)) = true)
                   required_vars).
  { unfold test_env_variables, required_vars. cbn [fold_left]. split.
    - intros H.
      repeat (apply Forall_cons || apply Forall_nil);
        destruct (opt_truthy (getenv "NANGO_NANGO_BASE_URL" (world s)));
        destruct (opt_truthy (getenv "NANGO_NANGO_SECRET_KEY" (world s)));
        destruct (opt_truthy (getenv "GMAIL_CONNECTION_ID" (world s)));
        destruct (opt_truthy (getenv "NANGO_PROVIDER_CONFIG_KEY" (world s)));
        try discriminate H; reflexivity.
    - intros H.
      inversion_clear H as [| ? ? H1 Ha]. inversion_clear Ha as [| ? ? H2 Hb].
      inversion_clear Hb as [| ? ? H3 Hc]. inversion_clear Hc as [| ? ? H4 _].
      rewrite H1, H2, H3, H4. reflexivity. }
  split; [exact Hiff |]. intros Htest. apply Hiff in Htest.
  inversion_clear Htest as [| ? ? H1 Ha]. inversion_clear Ha as [| ? ? H2 Hb].
  inversion_clear Hb as [| ? ? H3 Hc]. inversion_clear Hc as [| ? ? H4 _].
  assert (Hset : forall var, opt_truthy (getenv var (world s)) = true ->
                             exists v, getenv var (world s) = Some v /\ v <> ""
                                       /\ String.eqb v "" = false).
  { intros var H. unfold opt_truthy, str_truthy in H.
    destruct (getenv var (world s)) as [v |]; [| discriminate].
    exists v. split; [reflexivity |].
    destruct (String.eqb_spec v ""); [discriminate | split; [assumption | reflexivity]]. }
  split; [| split].
  - destruct (Hset _ H1) as (v & Hv & Hne & Heq). exists v. split; [exact Hne |].
    rewrite get_variable_run.
    change (env_key "f/secrets/nango/nango_base_url") with "NANGO_NANGO_BASE_URL".
    rewrite Hv, Heq. reflexivity.
  - destruct (Hset _ H2) as (v & Hv & Hne & Heq). exists v. split; [exact Hne |].
    rewrite get_variable_run.
    change (env_key "f/secrets/nango/nango_secret_key") with "NANGO_NANGO_SECRET_KEY".
    rewrite Hv, Heq. reflexivity.
  - intros Hnone.
    destruct (Hset _ H3) as (cid & Hcid & Hcne & Hceq).
    destruct (Hset _ H4) as (key & Hkey & _ & _).
    exists cid, key.
    unfold get_gmail_client, authenticate_gmail_with_nango_v2, try_except, bind,
      get_client_global, set_client_global, set_service_global, ask, call, lift,
      raise, ret.
    rewrite Hnone, Hcid, Hkey. cbn [opt_truthy or_default]. unfold str_truthy.
    rewrite Hceq. cbn [negb].
    repeat break_match; cbn [snd trace];
      repeat rewrite <- app_assoc; cbn [app]; eexists;
      (split; [reflexivity |]); (split; [reflexivity |]); reflexivity.
Qed.

Lemma connection_test_guarantees_configuration_witness :
  let w := mkSim (("NANGO_NANGO_BASE_URL", "https://api.nango.dev")
                    :: ("NANGO_NANGO_SECRET_KEY", "sk-1") :: sim_env0)
             (Ok flat_response) true [] in
  test_env_variables w = true
  /\ exists v, v <> ""
               /\ get_variable "f/secrets/nango/nango_secret_key" (init w)
                  = (Ok v, init w).
Proof.
  intros w. split; [reflexivity |].
  exact (proj1 (proj2 (proj2 (connection_test_guarantees_configuration (init w))
                         eq_refl))).
Defined.

(** ** The client's methods *)

(** X23.  No method of [GmailClient] that calls the mail service lets an
    exception out: whatever the service or the composing of a message
    raises is caught, and the method returns its mark of failure, the
    empty list for a listing or a search, [None] for a fetch or a send,
    [False] for a modify or a delete.  A search is the listing of its
    query with at most ten results, and returns the empty list when
    that listing raises.  Sending an attachment that is not there
    returns [None] without reading or sending anything; when the file
    is there, the method returns [None] if composing the message raises,
    with nothing sent, and [None] if the send raises, and the id of the
    message sent otherwise. *)
Theorem client_methods_swallow_exceptions {W : Type} {E : External W}
  (self : GmailClient) (s : state W) :
  (forall query max_results,
     exists l, fst (list_messages self query max_results s) = Ok l
               /\ (forall e w,
                     api_list (service self) query max_results (world s) = (Raise e, w) ->
                     l = []))
  /\ (forall sender subject after_date has_attachment is_unread,
      exists l,
        fst (search_messages self sender subject after_date has_attachment is_unread s)
        = Ok l
        /\ (forall e w,
              api_list (service self)
                (search_query sender subject after_date has_attachment is_unread) 10
                (world s) = (Raise e, w) ->
              l = []))
  /\ (forall message_id,
      exists r, fst (get_message self message_id s) = Ok r
                /\ (forall e w,
                      api_get (service self) message_id (world s) = (Raise e, w) ->
                      r = None))
  /\ (forall to subject body from_email,
      exists r, fst (send_message self to subject body from_email s) = Ok r
                /\ (forall e, mime_text_raw to subject body from_email = Raise e ->
                              r = None
                              /\ snd (send_message self to subject body from_email s) = s)
                /\ (forall raw e w,
                      mime_text_raw to subject body from_email = Ok raw ->
                      api_send (service self) raw (world s) = (Raise e, w) ->
                      r = None))
  /\ (forall to subject body file_path,
      exists r,
        fst (send_message_with_attachment self to subject body file_path s) = Ok r
        /\ (path_exists file_path (world s) = false ->
            r = None
            /\ snd (send_message_with_attachment self to subject body file_path s) = s)
        /\ (forall e w,
              path_exists file_path (world s) = true ->
              mime_multipart_raw to subject body file_path (world s) = (Raise e, w) ->
              r = None
              /\ snd (send_message_with_attachment self to subject body file_path s)
                 = logged s w [EvReadFile file_path])
        /\ (forall raw w e w',
              path_exists file_path (world s) = true ->
              mime_multipart_raw to subject body file_path (world s) = (Ok raw, w) ->
              api_send (service self) raw w = (Raise e, w') ->
              r = None
              /\ snd (send_message_with_attachment self to subject body file_path s)
                 = logged s w' [EvReadFile file_path; EvSend raw])
        /\ (forall raw w sent w',
              path_exists file_path (world s) = true ->
              mime_multipart_raw to subject body file_path (world s) = (Ok raw, w) ->
              api_send (service self) raw w = (Ok sent, w') ->
              r = Some sent))
  /\ (forall message_id,
      exists b, fst (mark_as_read self message_id s) = Ok b
                /\ (forall e w,
                      api_modify (service self) message_id (world s) = (Raise e, w) ->
                      b = false))
  /\ (forall message_id,
      exists b, fst (delete_message self message_id s) = Ok b
                /\ (forall e w,
                      api_delete (service self) message_id (world s) = (Raise e, w) ->
                      b = false)).
Proof.
  repeat match goal with |- _ /\ _ => split end.
  - intros query max_results. rewrite list_messages_run. eexists.
    split; [reflexivity |]. intros e w H. rewrite H. reflexivity.
  - intros sender subject after_date has_attachment is_unread.
    unfold search_messages. rewrite list_messages_run. eexists.
    split; [reflexivity |]. intros e w H. rewrite H. reflexivity.
  - intros message_id. rewrite get_message_run. eexists.
    split; [reflexivity |]. intros e w H. rewrite H. reflexivity.
  - intros to subject body from_email.
    unfold send_message, try_except, bind, lift, call, ret.
    destruct (mime_text_raw to subject body from_email) as [raw | e0].
    + destruct (api_send (service self) raw (world s)) as [[sent | e1] w1] eqn:Hsend;
        eexists; (split; [reflexivity |]); split; try discriminate.
      * intros raw' e w Hraw H. injection Hraw as <-. rewrite Hsend in H.
        discriminate.
      * intros raw' e w _ _. reflexivity.
    + eexists. split; [reflexivity |]. split.
      * intros e _. split; reflexivity.
      * discriminate.
  - intros to subject body file_path.
    unfold send_message_with_attachment, try_except, bind, ask, call, ret.
    destruct (path_exists file_path (world s)).
    + destruct (mime_multipart_raw to subject body file_path (world s))
        as [[raw | e0] w0]; cbn [world trace _gmail_client _gmail_service].
      * destruct (api_send (service self) raw w0) as [[sent | e1] w1] eqn:Hsend;
          eexists; (split; [reflexivity |]); (split; [discriminate |]);
          (split; [discriminate |]); split;
          intros raw' w e' w' _ Hraw H; injection Hraw as <- <-;
          rewrite Hsend in H; try discriminate H.
        -- injection H as <- <-. reflexivity.
        -- injection H as <- <-. unfold logged. rewrite <- app_assoc.
           split; reflexivity.
      * eexists. split; [reflexivity |]. split; [discriminate |].
        split; [| split; discriminate].
        intros e w _ H. injection H as <- <-. split; reflexivity.
    + eexists. split; [reflexivity |]. split; [intros _; split; reflexivity |].
      split; [discriminate | split; discriminate].
  - intros message_id. rewrite mark_as_read_run. eexists.
    split; [reflexivity |]. intros e w H. rewrite H. reflexivity.
  - intros message_id. rewrite delete_message_run. eexists.
    split; [reflexivity |]. intros e w H. rewrite H. reflexivity.
Qed.

Lemma client_methods_swallow_exceptions_witness :
  exists l,
    fst (list_messages
           (mkClient (mkService (mkCredentials (JStr "ya29.a0AfH6SMB") (JStr "1//0gkL")
                        "https://oauth2.googleapis.com/token" JNull JNull SCOPES)))
           "is:unread" 10 (init world_down)) = Ok l
    /\ l = [].
Proof.
  destruct (proj1 (client_methods_swallow_exceptions
                     (mkClient (mkService (mkCredentials (JStr "ya29.a0AfH6SMB")
                        (JStr "1//0gkL") "https://oauth2.googleapis.com/token"
                        JNull JNull SCOPES)))
                     (init world_down)) "is:unread" 10%Z) as (l & Hl & Hempty).
  exists l. split; [exact Hl |].
  exact (Hempty (RemoteError "HttpError 503: The service is currently unavailable.")
           world_down eq_refl).
Defined.

(** ** More on the query *)

(** X24.  The query is empty exactly when no filter is active.  A search with
    nothing set, or with [before_date] alone, therefore lists the mailbox
    without any restriction. *)
Theorem query_empty_iff_no_filter
  (sender subject after_date : option string) (has_attachment is_unread : bool) :
  search_query sender subject after_date has_attachment is_unread = "" <->
  opt_truthy sender = false /\ opt_truthy subject = false
  /\ opt_truthy after_date = false /\ has_attachment = false /\ is_unread = false.
Proof.
  unfold search_query, opt_truthy.
  destruct sender as [x |]; [destruct (str_truthy x) |];
    (destruct subject as [y |]; [destruct (str_truthy y) |]);
    (destruct after_date as [z |]; [destruct (str_truthy z) |]);
    destruct has_attachment, is_unread; cbn;
    (split; [intros H; try discriminate H; repeat split
            | intros (H1 & H2 & H3 & H4 & H5); try discriminate; reflexivity]).
Qed.

Lemma query_empty_iff_no_filter_witness :
  search_query (Some "") None (Some "") false false = "".
Proof.
  apply (proj2 (query_empty_iff_no_filter (Some "") None (Some "") false false)).
  repeat split.
Defined.

(** ** Sample runs *)

Example validate_email_address_samples :
  validate_email_address "a@b.com" = true
  /\ validate_email_address "a.com" = false
  /\ validate_email_address "a@b" = false.
Proof. repeat split. Qed.

Example gmail_get_message_sample :
  fst (gmail_get_message "m1" (init world_one))
  = Ok [ ("success", JBool true);
         ("message", JObj
            [ ("id", JStr "m1"); ("from", JStr "Unknown"); ("to", JStr "Unknown");
              ("subject", JStr "No Subject"); ("date", JStr "Unknown");
              ("body", JStr "Hello, world!"); ("snippet", JStr "Hello, world!");
              ("labels", JArr [JStr "INBOX"; JStr "UNREAD"]);
              ("thread_id", JStr "t1"); ("is_unread", JBool true) ]) ].
Proof. reflexivity. Qed.

Example gmail_search_messages_sample :
  dict_get "count"
    (match fst (gmail_search_messages None None None (Some "2024/01/01")
                  false true 100 (init world_twelve)) with
     | Ok resp => resp
     | Raise _ => []
     end) = Some (JNum 10)
  /\ trace (snd (gmail_search_messages None None None (Some "2024/01/01")
                   false true 100 (init world_twelve)))
     = trace (snd (get_gmail_client (init world_twelve)))
         ++ EvList "is:unread" 10
            :: map (fun k => EvGet ("m" ++ str_of_Z (Z.of_nat k))) (seq 1 10).
Proof. split; reflexivity. Qed.

Example gmail_get_stats_sample :
  fst (gmail_get_stats true (init world_one))
  = Ok [ ("success", JBool true); ("email_address", JStr "me@example.com");
         ("total_messages", JNum 1); ("total_threads", JNum 0);
         ("history_id", JStr "Unknown");
         ("unread_count",
          JStr "Error counting unread: GmailClient.search_messages() got an unexpected keyword argument 'max_results'") ].
Proof. reflexivity. Qed.

(** A subject made of a no-break space, U+00A0, is blank. *)
Example gmail_send_message_blank_subject_sample :
  fst (gmail_send_message "a@b.com"
         (String (ascii_of_nat 194) (String (ascii_of_nat 160) EmptyString))
         "How are you?" "" "" (init world_one))
  = Ok (failure "Subject cannot be empty").
Proof. reflexivity. Qed.

(** Two characters of a text of three, of two, three and one byte. *)
Example str_take_sample :
  str_take 2
    (String (ascii_of_nat 195) (String (ascii_of_nat 169)
       (String (ascii_of_nat 226) (String (ascii_of_nat 130) (String (ascii_of_nat 172)
          "x")))))
  = String (ascii_of_nat 195) (String (ascii_of_nat 169)
      (String (ascii_of_nat 226) (String (ascii_of_nat 130) (String (ascii_of_nat 172)
         EmptyString)))).
Proof. reflexivity. Qed.

Example gmail_delete_messages_sample :
  fst (gmail_delete_messages ["m1"; "m2"] (init world_one))
  = Ok [ ("success", JBool true); ("deleted", JNum 1); ("total_requested", JNum 2);
         ("message", JStr "Deleted 1/2 messages");
         ("failed_ids", JArr [JStr "m2"]);
         ("warning", JStr "Some messages could not be deleted") ].
Proof. reflexivity. Qed.
